(** * maxbolgarin/datetime: wall-clock time, UTC offsets, sorting priority

    A shallow embedding of [time.go] and of the timezone file of the
    package, with the properties of the time engine, the sorting-priority
    classifier, the time parser and the offset validator.

    Conventions.
    - Go's [int] and [time.Duration] are 64-bit; they are embedded in [Z].
      Where an operand can be arbitrary (a parsed number, a zone offset) the
      two's complement wrap-around is written out with [wrap64]; the time
      engine only handles hours below 24, minutes below 60 and minute counts
      below 2^63 / (60 * 10^9), which never wrap.
    - Go's [float64] is IEEE 754 binary64.  The only floats of the package
      are those of [Duration.Minutes]; they are embedded as a mantissa and
      an exponent, with the rounding to 53 bits written out ([GoFloat]).
    - A [time.Time] held by the package is always in [time.UTC]; it is
      embedded as its number of nanoseconds since the instant
      [time.Date(0, 0, 0, 0, 0, 0, 0, time.UTC)], which is a midnight.
    - Go strings are byte strings: [String.string]. *)

From Stdlib Require Import ZArith Lia List Bool.
From Stdlib Require Import Ascii String.
From Stdlib Require Import Decimal DecimalString DecimalZ.
From Stdlib Require SpecFloat.
From Equations Require Import Equations.
Import ListNotations.

Local Open Scope Z_scope.

(** ** Go's [float64], as far as [Duration.Minutes] needs it *)

Module GoFloat.

(** A finite float64, [mant * 2 ^ expo].  An operation of binary64 returns
    the exact result rounded to a mantissa of 53 bits, to the nearest one
    and to the even one on a tie.  The values met here are 0 or lie between
    2^-36 and 2^63 in magnitude, far from the subnormal numbers and from
    overflow, so the exponent is left unbounded. *)
Record float64 : Type := mkFloat { mant : Z; expo : Z }.

Definition zero : float64 := mkFloat 0 0.

(** [num / den], [den] positive, rounded to an integer: to the nearest
    one, to the even one on a tie. *)
Definition roundNearestEven (num den : Z) : Z :=
  let q := num / den in
  let r := num mod den in
  if 2 * r <? den then q
  else if den <? 2 * r then q + 1
  else if Z.even q then q else q + 1.

(** The fraction [(num / den) / 2 ^ e] with an integer numerator and
    denominator. *)
Definition scaled (num den e : Z) : Z * Z :=
  (num * 2 ^ Z.max 0 (- e), den * 2 ^ Z.max 0 e).

(** The exponent [e] that leaves 53 bits before the point,
    [2^52 <= (num / den) / 2^e < 2^53], for [num] and [den] positive: a
    quotient of a number of [a + 1] bits by one of [b + 1] bits lies
    between [2 ^ (a - b - 1)] and [2 ^ (a - b + 1)]. *)
Definition exponentOf (num den : Z) : Z :=
  let e := Z.log2 num - Z.log2 den - 52 in
  let '(n, d) := scaled num den e in
  if n <? 2 ^ 52 * d then e - 1 else e.

Definition roundPositive (num den : Z) : float64 :=
  let e := exponentOf num den in
  let '(n, d) := scaled num den e in
  mkFloat (roundNearestEven n d) e.

(** The float64 nearest to [num / den], [den] positive. *)
Definition round (num den : Z) : float64 :=
  match num with
  | 0 => zero
  | Z.pos _ => roundPositive num den
  | Z.neg _ => let f := roundPositive (- num) den in mkFloat (- mant f) (expo f)
  end.

(** [float64(x)] of an integer.  The conversion is exact below 2^53 in
    magnitude; [Minutes] converts a count of minutes and a rest of
    nanoseconds, below 2^28 and 2^36 for every 64-bit duration. *)
Definition ofInt (x : Z) : float64 := mkFloat x 0.

(** [x / y], for [y] other than zero. *)
Definition div (x y : float64) : float64 :=
  let e := Z.min (expo x) (expo y) in
  let n := mant x * 2 ^ (expo x - e) in
  let d := mant y * 2 ^ (expo y - e) in
  if d <? 0 then round (- n) (- d) else round n d.

(** [x + y]: the other operand when one is zero, else the exact sum
    rounded. *)
Definition add (x y : float64) : float64 :=
  if mant y =? 0 then x
  else if mant x =? 0 then y
  else
    let e := Z.min (expo x) (expo y) in
    let n := mant x * 2 ^ (expo x - e) + mant y * 2 ^ (expo y - e) in
    round (n * 2 ^ Z.max 0 e) (2 ^ Z.max 0 (- e)).

(** [int(x)]: the fraction is dropped, toward zero. *)
Definition toInt (x : float64) : Z :=
  Z.quot (mant x * 2 ^ Z.max 0 (expo x)) (2 ^ Z.max 0 (- expo x)).

(** [x] is the number that [y] is, a float of the Standard Library's model
    of IEEE 754 arithmetic. *)
Definition sameNumber (x : float64) (y : SpecFloat.spec_float) : bool :=
  match y with
  | SpecFloat.S754_zero _ => mant x =? 0
  | SpecFloat.S754_finite s m e =>
      let low := Z.min (expo x) e in
      mant x * 2 ^ (expo x - low) =? SpecFloat.cond_Zopp s (Z.pos m) * 2 ^ (e - low)
  | _ => false
  end.

End GoFloat.

(** ** The fragment of Go's [time] package that the code uses *)

Module GoTime.

(** [time.Duration]: a count of nanoseconds. *)
Definition Duration := Z.

Definition Nanosecond : Duration := 1.
Definition Second : Duration := 1000000000 * Nanosecond.
Definition Minute : Duration := 60 * Second.
Definition Hour : Duration := 60 * Minute.

(** [d.Minutes()]:
    [min := d / Minute; nsec := d % Minute;
     return float64(min) + float64(nsec)/(60*1e9)],
    with Go's truncating division and its remainder. *)
Definition Minutes (d : Duration) : GoFloat.float64 :=
  let min := Z.quot d Minute in
  let nsec := Z.rem d Minute in
  GoFloat.add (GoFloat.ofInt min)
              (GoFloat.div (GoFloat.ofInt nsec) (GoFloat.ofInt (60 * 1000000000))).

(** [int(d.Minutes())] *)
Definition MinutesInt (d : Duration) : Z := GoFloat.toInt (Minutes d).

(** The expression of [Minutes] in the Standard Library's binary64
    (53 bits of mantissa, exponents up to 1024), to check the rounding of
    [GoFloat] against. *)
Definition MinutesBinary64 (d : Duration) : SpecFloat.spec_float :=
  let float64 x := SpecFloat.binary_normalize 53 1024 x 0 false in
  SpecFloat.SFadd 53 1024 (float64 (Z.quot d Minute))
    (SpecFloat.SFdiv 53 1024 (float64 (Z.rem d Minute)) (float64 (60 * 1000000000))).

(** [time.Time] in UTC: nanoseconds since the reference midnight. *)
Definition Instant := Z.

(** [time.Date(0, 0, 0, hour, minute, 0, 0, time.UTC)]: the fields are
    normalised by carrying, which is addition on instants. *)
Definition Date000 (hour minute : Z) : Instant := hour * Hour + minute * Minute.

(** The zero [time.Time] is 0001-01-01T00:00:00Z, 398 days after the
    reference midnight -0001-11-30T00:00:00Z (31 days of December plus the
    first, then the leap year 0). *)
Definition zeroInstant : Instant := 398 * (24 * Hour).

Definition hourOf (t : Instant) : Z := (t / Hour) mod 24.
Definition minuteOf (t : Instant) : Z := (t / Minute) mod 60.
Definition Add (t : Instant) (d : Duration) : Instant := t + d.

End GoTime.

(** Two's complement wrap-around of Go's 64-bit [int]. *)
Definition wrap64 (z : Z) : Z := (z + 2 ^ 63) mod 2 ^ 64 - 2 ^ 63.

(** ** time.go *)

Definition minutesInDay : Z := 60 * 24.
Definition secondsInDay : Z := 86400.

(** [type Time struct { time.Time; isSet bool }] *)
Record Time : Type := mkTime { instant : GoTime.Instant; isSet : bool }.

(** [EmptyTime = Time{}] *)
Definition EmptyTime : Time := mkTime GoTime.zeroInstant false.

(** The promoted methods [Hour()] and [Minute()]. *)
Definition Hour (t : Time) : Z := GoTime.hourOf (instant t).
Definition Minute (t : Time) : Z := GoTime.minuteOf (instant t).

Definition NewTime (hour minute : Z) : Time :=
  mkTime (GoTime.Date000 hour minute) true.

Definition NewFromTime (t : GoTime.Instant) : Time :=
  mkTime (GoTime.Date000 (GoTime.hourOf t) (GoTime.minuteOf t)) true.

(** [Range]: the raw difference, field by field. *)
Definition Range (low high : Time) : GoTime.Duration :=
  GoTime.Hour * (Hour high - Hour low) + GoTime.Minute * (Minute high - Minute low).

Definition RangeUp (low high : Time) : GoTime.Duration :=
  let hours :=
    if Hour high <? Hour low then 24 - Hour low + Hour high
    else Hour high - Hour low in
  let '(hours, minutes) :=
    if Minute high <? Minute low then
      let hours := hours - 1 in
      let hours := if hours <? 0 then 23 else hours in
      (hours, 60 - Minute low + Minute high)
    else (hours, Minute high - Minute low) in
  GoTime.Hour * hours + GoTime.Minute * minutes.

Definition MinutesFromDayBegin (t dayStartTime : Time) : Z :=
  let hours :=
    if Hour t <? Hour dayStartTime then 24 - Hour dayStartTime - Hour t
    else Hour t - Hour dayStartTime in
  hours * 60 + Minute t.

Definition MinutesTillDayEnd (t dayStartTime : Time) : Z :=
  minutesInDay - MinutesFromDayBegin t dayStartTime.

(** [for minutes > minutesInDay { minutes -= minutesInDay }]: the loop of
    [AddTime] and [SubTime]; each turn brings [minutes] closer to the bound,
    which is the termination measure. *)
Equations? reduceToDay (minutes : Z) : Z by wf (Z.to_nat minutes) lt :=
  reduceToDay minutes with Z_gt_dec minutes minutesInDay := {
    | left _ => reduceToDay (minutes - minutesInDay)
    | right _ => minutes }.
Proof. unfold minutesInDay in *. lia. Qed.

Definition addTime (t : Time) (what : GoTime.Duration) (howMuch : Z) : Time :=
  mkTime (GoTime.Add (instant t) (what * howMuch)) true.

Definition subTime (t : Time) (what : GoTime.Duration) (howMuch : Z) : Time :=
  addTime t what (-1 * howMuch).

Definition AddTime (t : Time) (howMuch : GoTime.Duration) : Time :=
  let minutes := reduceToDay (GoTime.MinutesInt howMuch) in
  let tillEnd := MinutesTillDayEnd t EmptyTime in
  if minutes <? tillEnd then addTime t GoTime.Minute minutes
  else
    let afterDayStart := minutes - tillEnd in
    addTime (NewTime 0 0) GoTime.Minute afterDayStart.

Definition SubTime (t : Time) (howMuch : GoTime.Duration) : Time :=
  let minutes := reduceToDay (GoTime.MinutesInt howMuch) in
  let fromBegin := MinutesFromDayBegin t EmptyTime in
  if minutes <? fromBegin then subTime t GoTime.Minute minutes
  else
    let beforeDayStart := minutes - fromBegin - 1 in
    subTime (NewTime 23 59) GoTime.Minute beforeDayStart.

Definition EqualTime (t other : Time) : bool :=
  (Hour t =? Hour other) && (Minute t =? Minute other).

Definition IsBefore (t other : Time) : bool :=
  if Hour t >? Hour other then false
  else if (Hour t =? Hour other) && (Minute t >? Minute other) then false
  else true.

Definition IsArgBefore (t other : Time) : bool :=
  if Hour t <? Hour other then false
  else if (Hour t =? Hour other) && (Minute t <? Minute other) then false
  else true.

Definition IsBeforeStrict (t other : Time) : bool :=
  if Hour t >? Hour other then false
  else if (Hour t =? Hour other) && (Minute t >=? Minute other) then false
  else true.

Definition IsArgBeforeStrict (t other : Time) : bool :=
  if Hour t <? Hour other then false
  else if (Hour t =? Hour other) && (Minute t <=? Minute other) then false
  else true.

Definition IsAfter (t other : Time) : bool := IsArgBefore t other.
Definition IsArgAfter (t other : Time) : bool := IsBefore t other.
Definition IsAfterStrict (t other : Time) : bool := IsArgBeforeStrict t other.
Definition IsArgAfterStrict (t other : Time) : bool := IsBeforeStrict t other.

Definition SmartDiff (start end_ : Time) : GoTime.Duration :=
  let startMinutes := MinutesFromDayBegin start EmptyTime in
  let endMinutes := MinutesFromDayBegin end_ EmptyTime in
  if endMinutes >=? startMinutes then GoTime.Minute * (endMinutes - startMinutes)
  else GoTime.Minute * (endMinutes + MinutesTillDayEnd start EmptyTime).

(** The loop [for i := 1; i <= 6; i++] of [RoundDownToFives]; [n] counts the
    turns that are left, and a [break] ends the recursion. *)
Fixpoint roundLoop (n : nat) (i m : Z) : Z :=
  match n with
  | O => m
  | S n' =>
      let base := i * 10 in
      if m <? base then
        if m <=? base - 5 then base - 10 else base - 5
      else roundLoop n' (i + 1) m
  end.

Definition RoundDownToFives (t : Time) : Time :=
  let m := roundLoop 6 1 (Minute t) in
  NewTime (Hour t) m.

Definition RoundUpToFives (t : Time) : Time :=
  NewFromTime (GoTime.Add (instant (RoundDownToFives t)) (5 * GoTime.Minute)).

(** [IsZero]: the embedded [time.Time] is the zero instant and the value was
    never set. *)
Definition IsZero (t : Time) : bool :=
  if instant t =? GoTime.zeroInstant then negb (isSet t) else false.

Inductive SortingPriority : Type :=
| LongAgoPriority
| BeforePriority
| AfterPriority
| NotSoonPriority.

(** The numeric tag, [iota + 1]. *)
Definition priorityTag (p : SortingPriority) : Z :=
  match p with
  | LongAgoPriority => 1
  | BeforePriority => 2
  | AfterPriority => 3
  | NotSoonPriority => 4
  end.

Definition GetTimeSortingPriority (toCheck now dayStart : Time) : SortingPriority :=
  if IsArgBefore dayStart now then
    if IsBefore toCheck dayStart then
      if IsBefore toCheck now then BeforePriority else AfterPriority
    else LongAgoPriority
  else if IsAfter toCheck dayStart then
    if IsBefore toCheck now then BeforePriority else AfterPriority
  else NotSoonPriority.

(** The minute-of-day of a time, [hour * 60 + minute]. *)
Definition minuteOfDay (t : Time) : Z := Hour t * 60 + Minute t.


(** ** Outcomes of fallible functions *)

(** A Go function returning [(T, error)] either returns a value or an error;
    indexing a string out of range panics instead of returning. *)
Inductive outcome (A E : Type) : Type :=
| Ok (a : A)
| Err (e : E)
| Panic.

Arguments Ok {A E} a.
Arguments Err {A E} e.
Arguments Panic {A E}.

(** ** The fragment of Go's [strings] and [strconv] that the code uses *)

Module GoStrings.

Definition byteOf (c : ascii) : N := N_of_ascii c.

Definition isDigit (c : ascii) : bool :=
  (48 <=? byteOf c)%N && (byteOf c <=? 57)%N.

(** [len(s)], as an [int]. *)
Definition len (s : string) : Z := Z.of_nat (String.length s).

(** [strings.Split(s, sep)] for a separator of one byte, which is what every
    call of the package passes: the pieces between the occurrences of [sep],
    one more than there are occurrences. *)
Fixpoint Split (s : string) (sep : ascii) : list string :=
  match s with
  | EmptyString => [EmptyString]
  | String c s' =>
      if Ascii.eqb c sep then EmptyString :: Split s' sep
      else
        match Split s' sep with
        | piece :: pieces => String c piece :: pieces
        | [] => [String c EmptyString]
        end
  end.

(** [strings.Replace(s, old, new, 1)]: the first occurrence only. *)
Fixpoint ReplaceFirst (s old new : string) : string :=
  if String.prefix old s then
    (new ++ String.substring (String.length old) (String.length s - String.length old)%nat s)%string
  else
    match s with
    | EmptyString => EmptyString
    | String c s' => String c (ReplaceFirst s' old new)
    end.

(** The six one-byte white-space characters of Go's [asciiSpace] table:
    tab, line feed, vertical tab, form feed, carriage return and space. *)
Definition asciiSpace (c : ascii) : bool :=
  ((9 <=? byteOf c)%N && (byteOf c <=? 13)%N) || (byteOf c =? 32)%N.

(** The white-space runes beyond ASCII ([unicode.IsSpace]) in their UTF-8
    encoding: U+0085 and U+00A0 take two bytes; U+1680, U+2000 to U+200A,
    U+2028, U+2029, U+202F, U+205F and U+3000 take three. *)
Definition space2 (a b : ascii) : bool :=
  (byteOf a =? 194)%N && ((byteOf b =? 133)%N || (byteOf b =? 160)%N).

Definition space3 (a b c : ascii) : bool :=
  ((byteOf a =? 225)%N && (byteOf b =? 154)%N && (byteOf c =? 128)%N)
  || ((byteOf a =? 226)%N && (byteOf b =? 128)%N
      && (((128 <=? byteOf c)%N && (byteOf c <=? 138)%N)
          || (byteOf c =? 168)%N || (byteOf c =? 169)%N || (byteOf c =? 175)%N))
  || ((byteOf a =? 226)%N && (byteOf b =? 129)%N && (byteOf c =? 159)%N)
  || ((byteOf a =? 227)%N && (byteOf b =? 128)%N && (byteOf c =? 128)%N).

(** Dropping the leading white space.  When [mirrored] the string is read
    back to front, so the bytes of a rune arrive last byte first. *)
Fixpoint dropSpace (mirrored : bool) (s : string) : string :=
  match s with
  | EmptyString => EmptyString
  | String a s1 =>
      if asciiSpace a then dropSpace mirrored s1
      else
        match s1 with
        | String b s2 =>
            if (if mirrored then space2 b a else space2 a b) then dropSpace mirrored s2
            else
              match s2 with
              | String c s3 =>
                  if (if mirrored then space3 c b a else space3 a b c)
                  then dropSpace mirrored s3
                  else s
              | EmptyString => s
              end
        | EmptyString => s
        end
  end.

Fixpoint reverse (s : string) (acc : string) : string :=
  match s with
  | EmptyString => acc
  | String c s' => reverse s' (String c acc)
  end.

(** [strings.TrimSpace]: leading and trailing white space removed. *)
Definition TrimSpace (s : string) : string :=
  reverse (dropSpace true (reverse (dropSpace false s) EmptyString)) EmptyString.

(** The value of a run of decimal digits; [None] on any other byte. *)
Fixpoint digitsValue (s : string) (acc : Z) : option Z :=
  match s with
  | EmptyString => Some acc
  | String c s' =>
      if isDigit c then digitsValue s' (acc * 10 + (Z.of_N (byteOf c) - 48))
      else None
  end.

(** [strconv.Atoi]: an optional sign and at least one decimal digit; a value
    that does not fit 64 bits is an error too.  [None] stands for the
    error. *)
Definition Atoi (s : string) : option Z :=
  let '(negative, digits) :=
    match s with
    | String "+" rest => (false, rest)
    | String "-" rest => (true, rest)
    | _ => (false, s)
    end in
  match digits with
  | EmptyString => None
  | _ =>
      match digitsValue digits 0 with
      | None => None
      | Some n =>
          let v := if negative then - n else n in
          if (- 2 ^ 63 <=? v) && (v <? 2 ^ 63) then Some v else None
      end
  end.

(** [fmt.Sprintf("%d", n)] *)
Definition Itoa (n : Z) : string := NilZero.string_of_int (Z.to_int n).

End GoStrings.

(** ** time.go: parsing *)

(** [prepareNumber]: the string up to its first byte that is not a digit
    (nor, for a decimal, a period).  The source walks the runes of the
    string and cuts at the first offending one; a rune starts with a digit
    only if it is that digit, so walking the bytes cuts at the same place. *)
Fixpoint prepareNumber (s : string) (isDecimal : bool) : string :=
  match s with
  | EmptyString => EmptyString
  | String c s' =>
      if GoStrings.isDigit c then String c (prepareNumber s' isDecimal)
      else if isDecimal && Ascii.eqb c "."%char then String c (prepareNumber s' isDecimal)
      else EmptyString
  end.

(** The errors of [ParseTime], by the message they carry. *)
Inductive TimeError : Type :=
| TimeIsEmpty
| ParseHourFailed (token : string)
| InvalidHour (hour : Z)
| ParseMinuteFailed (token : string)
| InvalidMinute (minute : Z)
| InvalidTime (s : string).

Definition timeSeparators : list ascii :=
  [" "; ":"; "-"; "_"; ","; "."]%char.

(** The head of the loop body: the two tokens for one separator, or [None]
    where the source says [continue]. *)
Definition timeTokens (s : string) (sep : ascii) : option (string * string) :=
  match GoStrings.Split s sep with
  | [a; b] => Some (a, b)
  | _ =>
      if GoStrings.len s =? 4 then Some (String.substring 0 2 s, String.substring 2 2 s)
      else None
  end.

(** The rest of the loop body: every path through it returns. *)
Definition timeOfTokens (tokens : string * string) : outcome Time TimeError :=
  let '(s0, s1) := tokens in
  let s0 := prepareNumber s0 false in
  match GoStrings.Atoi s0 with
  | None => Err (ParseHourFailed s0)
  | Some hour =>
      if (hour <? 0) || (hour >? 23) then Err (InvalidHour hour)
      else
        let s1 := prepareNumber s1 false in
        match GoStrings.Atoi s1 with
        | None => Err (ParseMinuteFailed s1)
        | Some minute =>
            if (minute <? 0) || (minute >? 59) then Err (InvalidMinute minute)
            else Ok (NewTime hour minute)
        end
  end.

(** One turn of the loop: [None] is [continue], [Some] is [return]. *)
Definition timeAttempt (s : string) (sep : ascii) : option (outcome Time TimeError) :=
  option_map timeOfTokens (timeTokens s sep).

Fixpoint parseTimeLoop (s : string) (seps : list ascii) : outcome Time TimeError :=
  match seps with
  | [] => Err (InvalidTime s)
  | sep :: seps' =>
      match timeAttempt s sep with
      | Some r => r
      | None => parseTimeLoop s seps'
      end
  end.

Definition ParseTime (s : string) : outcome Time TimeError :=
  if String.eqb s EmptyString then Err TimeIsEmpty
  else parseTimeLoop s timeSeparators.

(** ** Locations and zoned times of Go's [time] package *)

Module GoZone.

(** [*time.Location]: a name and, for every instant (in Unix seconds), the
    offset from UTC in force, in seconds east of UTC. *)
Record Location : Type := mkLocation { locName : string; offsetAt : Z -> Z }.

Definition FixedZone (name : string) (offset : Z) : Location :=
  mkLocation name (fun _ => offset).

Definition UTC : Location := FixedZone "UTC" 0.

(** A [time.Time] with its location; [t.In(loc)] and the offset part of
    [t.Zone()]. *)
Record ZonedTime : Type := mkZoned { unix : Z; location : Location }.

Definition In (t : Z) (l : Location) : ZonedTime := mkZoned t l.
Definition ZoneOffset (t : ZonedTime) : Z := offsetAt (location t) (unix t).

End GoZone.

Abbreviation Location := GoZone.Location.
Abbreviation FixedZone := GoZone.FixedZone.
Abbreviation locName := GoZone.locName.
Abbreviation offsetAt := GoZone.offsetAt.
Abbreviation ZonedTime := GoZone.ZonedTime.
Abbreviation ZoneOffset := GoZone.ZoneOffset.

(** ** The timezone file *)

(** [type Timezone struct { loc *time.Location; offset int }] *)
Record Timezone : Type := mkTimezone { loc : Location; offset : Z }.

(** The errors of [ParseUTCOffset] and [ParseTimezone], by their message. *)
Inductive OffsetError : Type :=
| EmptyInput
| InvalidInput (input : string)
| InvalidHours (input hours : string)
| HoursAboveThreshold (threshold : Z) (hours : string)
| InvalidMinutes (input minutes : string)
| UnsupportedMinutes (minutes : Z)
| InvalidHourForMinute (sign : ascii) (hours minutes : Z)
| InvalidTimezone (s : string).

(** [isEqual(n, ns...)] *)
Fixpoint isEqual (n : Z) (ns : list Z) : bool :=
  match ns with
  | [] => false
  | target :: ns' => if n =? target then true else isEqual n ns'
  end.

Definition isMinus (sign : ascii) : bool := Ascii.eqb sign "-".
Definition isPlus (sign : ascii) : bool := Ascii.eqb sign "+".

(** [hoursThreshold]: 14, or 12 for the sign [-]. *)
Definition hoursThresholdOf (sign : ascii) : Z :=
  if isMinus sign then 12 else 14.

(** The checks of [ParseUTCOffset] on the minutes and on their pairing with
    the hours; [None] when all of them pass. *)
Definition checkMinutes (sign : ascii) (hoursInt minutesInt : Z) : option OffsetError :=
  if negb (isEqual minutesInt [0; 30; 45]) then Some (UnsupportedMinutes minutesInt)
  else if (minutesInt =? 30) && isPlus sign && negb (isEqual hoursInt [3; 4; 5; 6; 9; 10])
  then Some (InvalidHourForMinute sign hoursInt minutesInt)
  else if (minutesInt =? 30) && isMinus sign && negb (isEqual hoursInt [3; 9])
  then Some (InvalidHourForMinute sign hoursInt minutesInt)
  else if (minutesInt =? 45) && isMinus sign
  then Some (InvalidHourForMinute sign hoursInt minutesInt)
  else if (minutesInt =? 45) && isPlus sign && negb (isEqual hoursInt [5; 8; 12])
  then Some (InvalidHourForMinute sign hoursInt minutesInt)
  else None.

(** The loop over the separators [" "] and [":"]: two pieces end it, more
    than two are an error, one piece is kept as the hours, with minutes
    ["0"], and the next separator is tried. *)
Fixpoint offsetSplitLoop (input : string) (seps : list ascii) (hours minutes : string)
  : outcome (string * string) OffsetError :=
  match seps with
  | [] => Ok (hours, minutes)
  | sep :: seps' =>
      match GoStrings.Split input sep with
      | [a; b] => Ok (a, b)
      | [a] => offsetSplitLoop input seps' a "0"
      | [] => Panic
      | _ => Err (InvalidInput input)
      end
  end.

Definition ParseUTCOffset (input : string) : outcome Location OffsetError :=
  if GoStrings.len input =? 0 then Err EmptyInput
  else
    let input := GoStrings.TrimSpace (GoStrings.ReplaceFirst input "UTC" "") in
    match input with
    | EmptyString => Panic
    | String c0 rest =>
        let signed := isPlus c0 || isMinus c0 in
        if signed && (GoStrings.len input =? 1) then Err (InvalidInput input)
        else
          let sign := if signed then c0 else "+"%char in
          let input := if signed then rest else input in
          match offsetSplitLoop input [" "; ":"]%char "" "" with
          | Panic => Panic
          | Err e => Err e
          | Ok (hours, minutes) =>
              match GoStrings.Atoi hours with
              | None => Err (InvalidHours input hours)
              | Some hoursInt =>
                  let hoursThreshold := hoursThresholdOf sign in
                  if hoursInt >? hoursThreshold
                  then Err (HoursAboveThreshold hoursThreshold hours)
                  else
                    match GoStrings.Atoi minutes with
                    | None => Err (InvalidMinutes input minutes)
                    | Some minutesInt =>
                        match checkMinutes sign hoursInt minutesInt with
                        | Some e => Err e
                        | None =>
                            let signInt := if isMinus sign then -1 else 1 in
                            let name :=
                              ("UTC" ++ String sign hours
                                 ++ (if minutesInt >? 0 then ":" ++ minutes else ""))%string in
                            Ok (FixedZone name
                                  (wrap64 (signInt * hoursInt * 60 * 60
                                           + signInt * minutesInt * 60)))
                        end
                    end
              end
          end
    end.

Definition NewTimezoneFromTime (t : ZonedTime) : Timezone :=
  let offset0 := ZoneOffset t in
  let '(sign, offset1) :=
    if offset0 <? 0 then ("-"%string, wrap64 (- offset0)) else ("+"%string, offset0) in
  let hours := Z.quot offset1 3600 in
  let minutes := Z.quot (Z.rem offset1 3600) 60 in
  if hours =? 0 then mkTimezone (FixedZone "UTC" offset1) offset0
  else if minutes =? 0 then
    mkTimezone (FixedZone ("UTC" ++ sign ++ GoStrings.Itoa hours)%string offset1) offset0
  else
    mkTimezone
      (FixedZone ("UTC" ++ sign ++ GoStrings.Itoa hours ++ ":" ++ GoStrings.Itoa minutes)%string
         offset1)
      offset0.

Section ZoneDatabase.

(** The zone database behind [time.LoadLocation] ([None] when the lookup
    fails) and the reading of the clock by [time.Now()]. *)
Variable LoadLocation : string -> option Location.
Variable now : Z.

(** [NewTimezone]; a nil location stands for UTC. *)
Definition NewTimezone (l : option Location) : Timezone :=
  let l := match l with None => GoZone.UTC | Some l => l end in
  NewTimezoneFromTime (GoZone.In now l).

Definition ParseTimezone (s : string) : outcome Timezone OffsetError :=
  if GoStrings.len s <? 3 then Err (InvalidTimezone s)
  else
    match LoadLocation s with
    | Some l => Ok (NewTimezone (Some l))
    | None =>
        match ParseUTCOffset s with
        | Ok l => Ok (NewTimezone (Some l))
        | Err e => Err e
        | Panic => Panic
        end
    end.

End ZoneDatabase.

(** The methods of [Timezone]. *)
Definition Loc (i : Timezone) : Location := loc i.
Definition Offset (i : Timezone) : Z := offset i.
Definition OffsetHours (i : Timezone) : Z := Z.quot (offset i) 3600.
Definition TimezoneString (i : Timezone) : string := locName (loc i).

(** ** The real-world offsets and the reading of a display string *)

(** The offsets that the validator is written to accept: a sign, a number
    of hours from 0 up to the threshold of the sign, and minutes that pass
    [checkMinutes] with these hours. *)
Definition knownOffsets : list Z :=
  flat_map (fun sign =>
    flat_map (fun h =>
      flat_map (fun m =>
        if (h <=? hoursThresholdOf sign)
           && match checkMinutes sign h m with None => true | Some _ => false end
        then [(if isMinus sign then -1 else 1) * (h * 3600 + m * 60)]
        else [])
        [0; 30; 45])
      (map Z.of_nat (seq 0 15)))
    ["+"; "-"]%char.

Definition knownOffset (seconds : Z) : bool :=
  existsb (Z.eqb seconds) knownOffsets.

Definition readNumber (s : string) : option Z :=
  option_map Z.of_uint (NilZero.uint_of_string s).

(** The offset that a display string stands for: [UTC] is 0, [UTC+H] and
    [UTC-H] are H hours east or west, [UTC+H:M] and [UTC-H:M] add M
    minutes. *)
Definition readDisplay (s : string) : option Z :=
  match s with
  | String "U" (String "T" (String "C" rest)) =>
      match rest with
      | EmptyString => Some 0
      | String sign digits =>
          let signInt :=
            if isPlus sign then Some 1 else if isMinus sign then Some (-1) else None in
          let magnitude :=
            match GoStrings.Split digits ":" with
            | [h] => option_map (fun h => h * 3600) (readNumber h)
            | [h; m] =>
                match readNumber h, readNumber m with
                | Some h, Some m => Some (h * 3600 + m * 60)
                | _, _ => None
                end
            | _ => None
            end in
          match signInt, magnitude with
          | Some sg, Some v => Some (sg * v)
          | _, _ => None
          end
      end
  | _ => None
  end.

(** The invariant that the specification asks of a [Timezone]. *)
Definition realWorldAndReadable (i : Timezone) : Prop :=
  knownOffset (Offset i) = true /\ readDisplay (TimezoneString i) = Some (Offset i).

(** ** time.go: display *)

(** A number below 100 on two digits, as the layout elements [15] and [04]
    print an hour and a minute. *)
Definition pad2 (n : Z) : string :=
  if n <? 10 then ("0" ++ GoStrings.Itoa n)%string else GoStrings.Itoa n.

(** [String]: [t.Format("15:04")]. *)
Definition TimeString (t : Time) : string :=
  (pad2 (Hour t) ++ ":" ++ pad2 (Minute t))%string.

(** Every byte of the string is a decimal digit. *)
Fixpoint allDigits (s : string) : bool :=
  match s with
  | EmptyString => true
  | String c s' => GoStrings.isDigit c && allDigits s'
  end.

(** The integers from 0 up to, not including, [n]. *)
Definition upto (n : nat) : list Z := map Z.of_nat (seq 0 n).

(** The outcome is the time [NewTime(h, m)]. *)
Definition isTime (r : outcome Time TimeError) (h m : Z) : bool :=
  match r with
  | Ok t => (instant t =? instant (NewTime h m)) && isSet t
  | _ => false
  end.

(** The outcome is the error of a minute token that does not convert. *)
Definition isMinuteFailure (r : outcome Time TimeError) : bool :=
  match r with
  | Err (ParseMinuteFailed token) => String.eqb token EmptyString
  | _ => false
  end.

(** ** The JSON adapters *)

(** What an [UnmarshalJSON] can fail with: the error of [json.Unmarshal] or
    the error of the parser behind it. *)
Inductive JSONError (E : Type) : Type :=
| JSONSyntax
| Refused (e : E).

Arguments JSONSyntax {E}.
Arguments Refused {E} e.

Section JSON.

(** [encoding/json] on strings: [json.Marshal(s)], which cannot fail, and
    [json.Unmarshal(data, &s)] into an empty string variable, [None] when it
    returns an error. *)
Variable jsonMarshalString : string -> string.
Variable jsonUnmarshalString : string -> option string.

Variable LoadLocation : string -> option Location.
Variable now : Z.

(** [Time.MarshalJSON]; it returns no error. *)
Definition Time_MarshalJSON (t : Time) : string :=
  if negb (isSet t) then "null"%string else jsonMarshalString (TimeString t).

(** [Time.UnmarshalJSON]: the receiver after the call, or the error. *)
Definition Time_UnmarshalJSON (i : Time) (data : string)
  : outcome Time (JSONError TimeError) :=
  match jsonUnmarshalString data with
  | None => Err JSONSyntax
  | Some s =>
      if String.eqb s EmptyString then Ok i
      else
        match ParseTime s with
        | Err e => Err (Refused e)
        | Panic => Panic
        | Ok res => Ok (mkTime (instant res) true)
        end
  end.

(** [Timezone.MarshalJSON]: the display string between double quotes. *)
Definition Timezone_MarshalJSON (i : Timezone) : string :=
  (String (ascii_of_nat 34) (TimezoneString i) ++ String (ascii_of_nat 34) "")%string.

(** [Timezone.UnmarshalJSON]: the receiver after the call, or the error.
    Only the field [loc] is assigned. *)
Definition Timezone_UnmarshalJSON (i : Timezone) (data : string)
  : outcome Timezone (JSONError OffsetError) :=
  match jsonUnmarshalString data with
  | None => Err JSONSyntax
  | Some s =>
      if String.eqb s EmptyString then Ok i
      else
        match ParseTimezone LoadLocation now s with
        | Err e => Err (Refused e)
        | Panic => Panic
        | Ok l => Ok (mkTimezone (loc l) (offset i))
        end
  end.

End JSON.

(** A stand-in for [encoding/json] on strings that need no escaping: the
    encoder puts the string between double quotes, the decoder takes the
    first and the last byte away. *)
Definition quoteString (s : string) : string :=
  (String (ascii_of_nat 34) s ++ String (ascii_of_nat 34) "")%string.

Definition unquoteString (data : string) : option string :=
  match data with
  | String _ rest => Some (String.substring 0 (String.length rest - 1) rest)
  | EmptyString => None
  end.

(** ** date.go: comparing dates *)

Section Dates.

(** The [time.Time] embedded in a [Date], seen through the three methods
    that the comparisons call. *)
Variable CivilTime : Type.
Variables Year Month Day : CivilTime -> Z.

(** [type Date struct { time.Time }] *)
Record Date : Type := mkDate { dateTime : CivilTime }.

Definition EqualDate (d other : Date) : bool :=
  (Day (dateTime d) =? Day (dateTime other))
  && (Month (dateTime d) =? Month (dateTime other))
  && (Year (dateTime d) =? Year (dateTime other)).

Definition IsArgNextDay (d t : Date) : bool :=
  if Year (dateTime d) <? Year (dateTime t) then true
  else if Year (dateTime d) >? Year (dateTime t) then false
  else if Month (dateTime d) <? Month (dateTime t) then true
  else if Month (dateTime d) >? Month (dateTime t) then false
  else if Day (dateTime d) <? Day (dateTime t) then true
  else if Day (dateTime d) >? Day (dateTime t) then false
  else false.

End Dates.

Arguments mkDate {CivilTime} dateTime.
Arguments dateTime {CivilTime} d.
Arguments EqualDate {CivilTime} Year Month Day d other.
Arguments IsArgNextDay {CivilTime} Year Month Day d t.

(** ** The rounding of [Duration.Minutes] *)

Lemma pow2_positive (k : Z) : 0 < 2 ^ Z.max 0 k.
Proof. apply Z.pow_pos_nonneg; lia. Qed.

(** [2 ^ hi / 2 ^ lo] is [2 ^ e] when [hi - lo = e], whatever the sign of
    [e]. *)
Lemma pow2_shift (hi lo e : Z) :
  0 <= hi -> 0 <= lo -> hi - lo = e ->
  2 ^ hi * 2 ^ Z.max 0 (- e) = 2 ^ lo * 2 ^ Z.max 0 e.
Proof.
  intros Hhi Hlo He. destruct (Z.le_ge_cases 0 e).
  - rewrite (Z.max_l 0 (- e)), (Z.max_r 0 e) by lia.
    rewrite <- (Z.pow_add_r 2 lo e) by lia.
    rewrite Z.pow_0_r, Z.mul_1_r. f_equal. lia.
  - rewrite (Z.max_r 0 (- e)), (Z.max_l 0 e) by lia.
    rewrite <- (Z.pow_add_r 2 hi (- e)) by lia.
    rewrite Z.pow_0_r, Z.mul_1_r. f_equal. lia.
Qed.

(** One exponent less doubles the scaled fraction. *)
Lemma pow2_step (e : Z) :
  2 ^ Z.max 0 (- (e - 1)) * 2 ^ Z.max 0 e
    = 2 * (2 ^ Z.max 0 (- e) * 2 ^ Z.max 0 (e - 1)).
Proof.
  destruct (Z.le_gt_cases 1 e).
  - rewrite (Z.max_l 0 (- (e - 1))), (Z.max_l 0 (- e)) by lia.
    rewrite (Z.max_r 0 e), (Z.max_r 0 (e - 1)) by lia.
    rewrite Z.pow_0_r, !Z.mul_1_l.
    rewrite <- (Z.pow_succ_r 2 (e - 1)) by lia. f_equal. lia.
  - rewrite (Z.max_r 0 (- (e - 1))), (Z.max_r 0 (- e)) by lia.
    rewrite (Z.max_l 0 e), (Z.max_l 0 (e - 1)) by lia.
    rewrite Z.pow_0_r, !Z.mul_1_r.
    rewrite <- (Z.pow_succ_r 2 (- e)) by lia. f_equal. lia.
Qed.

(** The exponent chosen leaves the scaled fraction in [2^52, 2^53). *)
Lemma exponentOf_binade (num den : Z) :
  0 < num -> 0 < den ->
  let e := GoFloat.exponentOf num den in
  2 ^ 52 * (den * 2 ^ Z.max 0 e) <= num * 2 ^ Z.max 0 (- e)
  /\ num * 2 ^ Z.max 0 (- e) < 2 ^ 53 * (den * 2 ^ Z.max 0 e).
Proof.
  intros Hnum Hden. cbv zeta. unfold GoFloat.exponentOf, GoFloat.scaled.
  pose proof (Z.log2_spec num Hnum) as [Ha1 Ha2].
  pose proof (Z.log2_spec den Hden) as [Hb1 Hb2].
  pose proof (Z.log2_nonneg num) as Ha. pose proof (Z.log2_nonneg den) as Hb.
  set (a := Z.log2 num) in *. set (b := Z.log2 den) in *.
  set (e := a - b - 52).
  pose proof (pow2_shift (Z.succ a) (b + 53) e ltac:(lia) ltac:(lia) ltac:(lia)) as Hup.
  pose proof (pow2_shift a (b + 53) (e - 1) ltac:(lia) ltac:(lia) ltac:(lia)) as Hlow.
  pose proof (pow2_step e) as Hstep.
  rewrite Z.pow_add_r in Hup, Hlow by lia.
  pose proof (pow2_positive e) as HU. pose proof (pow2_positive (- e)) as HD.
  pose proof (pow2_positive (e - 1)) as HU'. pose proof (pow2_positive (- (e - 1))) as HD'.
  set (U := 2 ^ Z.max 0 e) in *. set (D := 2 ^ Z.max 0 (- e)) in *.
  set (U' := 2 ^ Z.max 0 (e - 1)) in *. set (D' := 2 ^ Z.max 0 (- (e - 1))) in *.
  assert (Hb53 : 0 < 2 ^ b) by (apply Z.pow_pos_nonneg; lia).
  set (pa := 2 ^ a) in *. set (pa1 := 2 ^ Z.succ a) in *. set (pb := 2 ^ b) in *.
  set (pb1 := 2 ^ Z.succ b) in *.
  assert (Hpb1 : pb1 = 2 * pb) by (unfold pb1, pb; rewrite Z.pow_succ_r by lia; reflexivity).
  change (2 ^ 52) with 4503599627370496 in *.
  change (2 ^ 53) with 9007199254740992 in *.
  destruct (Z.ltb_spec (num * D) (4503599627370496 * (den * U))) as [Hlt | Hge].
  - split.
    + assert (pa * D' <= num * D') by (apply Z.mul_le_mono_nonneg_r; lia).
      assert (den * U' <= 2 * pb * U') by (apply Z.mul_le_mono_nonneg_r; lia).
      lia.
    + assert (Hs : num * D * U' < 4503599627370496 * (den * U) * U')
        by (apply Z.mul_lt_mono_pos_r; assumption).
      assert (Hd : num * (D' * U) = num * (2 * (D * U'))) by (rewrite Hstep; reflexivity).
      apply (Z.mul_lt_mono_pos_r U); [assumption | lia].
  - split; [exact Hge|].
    assert (num * D < pa1 * D) by (apply Z.mul_lt_mono_pos_r; assumption).
    assert (pb * U <= den * U) by (apply Z.mul_le_mono_nonneg_r; lia).
    lia.
Qed.

(** Rounding to nearest moves a fraction by half a unit at most. *)
Lemma roundNearestEven_near (num den : Z) :
  0 < den ->
  let m := GoFloat.roundNearestEven num den in
  2 * (m * den) <= 2 * num + den /\ 2 * num <= 2 * (m * den) + den.
Proof.
  intros Hden. cbv zeta. unfold GoFloat.roundNearestEven.
  pose proof (Z.div_mod num den ltac:(lia)) as Hdm.
  pose proof (Z.mod_pos_bound num den Hden) as Hr.
  set (q := num / den) in *. set (r := num mod den) in *.
  destruct (Z.ltb_spec (2 * r) den); [lia|].
  destruct (Z.ltb_spec den (2 * r)); [lia|].
  destruct (Z.even q); lia.
Qed.

Lemma round_positive (num den : Z) :
  0 < num -> GoFloat.round num den = GoFloat.roundPositive num den.
Proof. intros Hnum. destruct num; try lia. reflexivity. Qed.

(** The quotient of the nanoseconds of an unfinished minute by those of a
    minute: a float64 [m * 2 ^ e] below 1, with [e <= -53], at most half a
    unit of its last place above the exact quotient. *)
Lemma div_nanoseconds (nsec : Z) :
  0 < nsec < 60000000000 ->
  exists m e,
    GoFloat.div (GoFloat.ofInt nsec) (GoFloat.ofInt (60 * 1000000000)) = GoFloat.mkFloat m e
    /\ e <= -53 /\ 0 < m
    /\ 2 * (m * 60000000000) <= 2 * (nsec * 2 ^ (- e)) + 60000000000.
Proof.
  intros Hn. unfold GoFloat.div, GoFloat.ofInt. cbn [GoFloat.mant GoFloat.expo].
  change (Z.min 0 0) with 0. change (0 - 0) with 0. change (2 ^ 0) with 1.
  change (60 * 1000000000 * 1) with 60000000000. rewrite Z.mul_1_r.
  change (60000000000 <? 0) with false. cbv iota.
  rewrite round_positive by lia. unfold GoFloat.roundPositive, GoFloat.scaled.
  pose proof (exponentOf_binade nsec 60000000000 ltac:(lia) ltac:(lia)) as Hbin.
  cbv zeta in Hbin.
  set (e := GoFloat.exponentOf nsec 60000000000) in *.
  pose proof (pow2_positive e) as HU. pose proof (pow2_positive (- e)) as HD.
  assert (He : e <= -53).
  { destruct (Z.le_gt_cases e (-53)) as [|Hgt]; [assumption | exfalso].
    destruct Hbin as [Hlow _].
    destruct (Z.le_gt_cases 0 e).
    - rewrite (Z.max_l 0 (- e)) in Hlow by lia. change (2 ^ 0) with 1 in Hlow.
      change (2 ^ 52) with 4503599627370496 in Hlow.
      assert (60000000000 * 1 <= 60000000000 * 2 ^ Z.max 0 e)
        by (apply Z.mul_le_mono_nonneg_l; lia).
      lia.
    - rewrite (Z.max_r 0 (- e)), (Z.max_l 0 e) in Hlow by lia.
      change (2 ^ 0) with 1 in Hlow.
      assert (HP : 2 ^ (- e) <= 2 ^ 52) by (apply Z.pow_le_mono_r; lia).
      change (2 ^ 52) with 4503599627370496 in Hlow, HP.
      assert (nsec * 2 ^ (- e) <= 59999999999 * 2 ^ (- e))
        by (apply Z.mul_le_mono_nonneg_r; lia).
      lia. }
  rewrite (Z.max_r 0 (- e)), (Z.max_l 0 e) in * by lia.
  change (2 ^ 0) with 1 in *. rewrite Z.mul_1_r in *.
  pose proof (roundNearestEven_near (nsec * 2 ^ (- e)) 60000000000 ltac:(lia)) as Hnear.
  cbv zeta in Hnear.
  set (m := GoFloat.roundNearestEven (nsec * 2 ^ (- e)) 60000000000) in *.
  exists m, e. split; [reflexivity|]. split; [exact He|].
  change (2 ^ 52) with 4503599627370496 in Hbin. split; [|lia]. lia.
Qed.

Lemma toInt_ofInt (x : Z) : GoFloat.toInt (GoFloat.ofInt x) = x.
Proof.
  unfold GoFloat.toInt, GoFloat.ofInt. cbn [GoFloat.mant GoFloat.expo].
  change (2 ^ Z.max 0 0) with 1. change (2 ^ Z.max 0 (- 0)) with 1.
  rewrite Z.mul_1_r. apply Z.quot_1_r.
Qed.

(** Below 2^18 minutes the float sum of [Minutes] stays under the next
    whole minute, and [int] gives the whole minutes of the duration. *)
Lemma MinutesInt_floor (d : GoTime.Duration) :
  0 <= d < 2 ^ 18 * GoTime.Minute ->
  GoTime.MinutesInt d = d / GoTime.Minute.
Proof.
  intros Hd. unfold GoTime.MinutesInt, GoTime.Minutes.
  change GoTime.Minute with 60000000000 in *. change (2 ^ 18) with 262144 in Hd.
  rewrite Z.quot_div_nonneg, Z.rem_mod_nonneg by lia.
  pose proof (Z.div_mod d 60000000000 ltac:(lia)) as Hdm.
  pose proof (Z.mod_pos_bound d 60000000000 ltac:(lia)) as Hr.
  set (min := d / 60000000000) in *. set (nsec := d mod 60000000000) in *.
  assert (Hmin : 0 <= min < 262144) by lia.
  destruct (Z.eq_dec nsec 0) as [Hz | Hnz].
  - rewrite Hz. cbn. apply toInt_ofInt.
  - destruct (div_nanoseconds nsec ltac:(lia)) as (m & e & -> & He & Hm & Hnear).
    assert (HA : 2 ^ 53 <= 2 ^ (- e)) by (apply Z.pow_le_mono_r; lia).
    change (2 ^ 53) with 9007199254740992 in HA.
    set (A := 2 ^ (- e)) in *.
    assert (Hn1 : nsec * A <= 59999999999 * A) by (apply Z.mul_le_mono_nonneg_r; lia).
    assert (HmA : m < A) by lia.
    unfold GoFloat.add, GoFloat.ofInt. cbn [GoFloat.mant GoFloat.expo].
    destruct (Z.eqb_spec m 0); [lia|].
    destruct (Z.eqb_spec min 0) as [Hmin0 | Hmin0].
    + rewrite Hmin0. unfold GoFloat.toInt. cbn [GoFloat.mant GoFloat.expo].
      rewrite (Z.max_l 0 e), (Z.max_r 0 (- e)) by lia.
      change (2 ^ 0) with 1. rewrite Z.mul_1_r. fold A.
      rewrite Z.quot_div_nonneg by lia. apply Z.div_small. lia.
    + rewrite (Z.min_r 0 e) by lia.
      replace (e - e) with 0 by lia. change (2 ^ 0) with 1.
      rewrite (Z.max_l 0 e), (Z.max_r 0 (- e)) by lia.
      change (2 ^ 0) with 1. rewrite !Z.mul_1_r.
      replace (0 - e) with (- e) by lia. fold A.
      assert (HminA : 1 * A <= min * A) by (apply Z.mul_le_mono_nonneg_r; lia).
      assert (HminA' : min * A <= 262143 * A) by (apply Z.mul_le_mono_nonneg_r; lia).
      rewrite round_positive by lia.
      unfold GoFloat.roundPositive, GoFloat.scaled.
      pose proof (exponentOf_binade (min * A + m) A ltac:(lia) ltac:(lia)) as Hbin.
      cbv zeta in Hbin.
      set (es := GoFloat.exponentOf (min * A + m) A) in *.
      assert (Hes : es <= -35).
      { destruct (Z.le_gt_cases es (-35)) as [|Hgt]; [assumption | exfalso].
        destruct Hbin as [Hlow _].
        change (2 ^ 52) with 4503599627370496 in Hlow.
        destruct (Z.le_gt_cases 0 es).
        - rewrite (Z.max_l 0 (- es)) in Hlow by lia. change (2 ^ 0) with 1 in Hlow.
          pose proof (pow2_positive es) as HQ.
          assert (A * 1 <= A * 2 ^ Z.max 0 es) by (apply Z.mul_le_mono_nonneg_l; lia).
          lia.
        - rewrite (Z.max_r 0 (- es)), (Z.max_l 0 es) in Hlow by lia.
          change (2 ^ 0) with 1 in Hlow.
          assert (HP : 2 ^ (- es) <= 2 ^ 34) by (apply Z.pow_le_mono_r; lia).
          change (2 ^ 34) with 17179869184 in HP.
          pose proof (pow2_positive (- es)) as HP0.
          rewrite (Z.max_r 0 (- es)) in HP0 by lia.
          set (P := 2 ^ (- es)) in *.
          assert (Hs' : (min * A + m) * P < 262144 * A * P)
            by (apply Z.mul_lt_mono_pos_r; lia).
          assert (Hs'' : 262144 * A * P <= 262144 * A * 17179869184)
            by (apply Z.mul_le_mono_nonneg_l; lia).
          lia. }
      rewrite (Z.max_r 0 (- es)), (Z.max_l 0 es) in * by lia.
      change (2 ^ 0) with 1 in *. rewrite Z.mul_1_r in *.
      assert (HE : 2 ^ 35 <= 2 ^ (- es)) by (apply Z.pow_le_mono_r; lia).
      change (2 ^ 35) with 34359738368 in HE.
      set (E := 2 ^ (- es)) in *.
      pose proof (roundNearestEven_near ((min * A + m) * E) A ltac:(lia)) as Hsum.
      cbv zeta in Hsum.
      set (ms := GoFloat.roundNearestEven ((min * A + m) * E) A) in *.
      unfold GoFloat.toInt. cbn [GoFloat.mant GoFloat.expo].
      rewrite (Z.max_l 0 es), (Z.max_r 0 (- es)) by lia.
      change (2 ^ 0) with 1. rewrite Z.mul_1_r. fold E.
      assert (HmE : 0 <= m * E) by (apply Z.mul_nonneg_nonneg; lia).
      assert (Hlow : min * E <= ms).
      { destruct (Z.le_gt_cases (min * E) ms) as [|Hlt]; [assumption | exfalso].
        assert (ms * A <= (min * E - 1) * A) by (apply Z.mul_le_mono_nonneg_r; lia).
        lia. }
      assert (Hup : ms < (min + 1) * E).
      { destruct (Z.lt_ge_cases ms ((min + 1) * E)) as [|Hge]; [assumption | exfalso].
        assert (Hg : (min + 1) * E * A <= ms * A) by (apply Z.mul_le_mono_nonneg_r; lia).
        assert (H1 : 2 * (E * A) <= 2 * (m * E) + A) by lia.
        assert (Hn3 : 2 * (m * 60000000000) * E
                      <= (2 * (59999999999 * A) + 60000000000) * E)
          by (apply Z.mul_le_mono_nonneg_r; lia).
        assert (H3 : 0 <= (E - 34359738368) * (A - 9007199254740992))
          by (apply Z.mul_nonneg_nonneg; lia).
        lia. }
      rewrite Z.quot_div_nonneg by lia.
      symmetry. apply Z.div_unique with (r := ms - min * E); lia.
Qed.

(** The float of [Minutes] is the number that the Standard Library's
    binary64 gives for the same expression: on durations short and long,
    of both signs, next to a whole minute and on both sides of 2^18
    minutes, up to the ends of the 64 bits. *)
Example Minutes_binary64 :
  forallb (fun d => GoFloat.sameNumber (GoTime.Minutes d) (GoTime.MinutesBinary64 d))
    [0; 1; 999999999; 59999999999; 60000000000; 60000000001; 5430000000000;
     90000000000000; 90059999999999; 7864379999999999; 15728639999999999;
     15728640000000000; 15728699999999998; 15728699999999999;
     31457339999999998; 31457339999999997; 62914799999999996;
     60000209999999999; 8053063739999999000; 9223372036854775807;
     3992531588042663278; 3951583125490712104; 3602732375602696334;
     2083708801608112066; 3943202003395666622; 875768564598889011; (-1);
     (-999999999); (-59999999999); (-60000000000); (-60000000001);
     (-5430000000000); (-90000000000000); (-90059999999999);
     (-7864379999999999); (-15728639999999999); (-15728640000000000);
     (-15728699999999998); (-15728699999999999); (-31457339999999998);
     (-31457339999999997); (-62914799999999996); (-60000209999999999);
     (-8053063739999999000); (-9223372036854775807); (-3992531588042663278);
     (-3951583125490712104); (-3602732375602696334); (-2083708801608112066);
     (-3943202003395666622); (-875768564598889011)]
  = true.
Proof. vm_compute. reflexivity. Qed.

(** ** Arithmetic of the clock face *)

Lemma Hour_range (t : Time) : 0 <= Hour t < 24.
Proof. unfold Hour, GoTime.hourOf. apply Z.mod_pos_bound. lia. Qed.

Lemma Minute_range (t : Time) : 0 <= Minute t < 60.
Proof. unfold Minute, GoTime.minuteOf. apply Z.mod_pos_bound. lia. Qed.

Lemma minuteOfDay_range (t : Time) : 0 <= minuteOfDay t < 1440.
Proof.
  unfold minuteOfDay.
  pose proof (Hour_range t). pose proof (Minute_range t). lia.
Qed.

(** The minute-of-day is the minute count of the instant, modulo a day. *)
Lemma minuteOfDay_instant (t : Time) :
  minuteOfDay t = (instant t / GoTime.Minute) mod 1440.
Proof.
  unfold minuteOfDay, Hour, Minute, GoTime.hourOf, GoTime.minuteOf.
  replace GoTime.Hour with (GoTime.Minute * 60) by reflexivity.
  rewrite <- Z.div_div by (unfold GoTime.Minute, GoTime.Second, GoTime.Nanosecond; lia).
  generalize (instant t / GoTime.Minute). intro q.
  pose proof (Z.div_mod q 60 ltac:(lia)).
  pose proof (Z.mod_pos_bound q 60 ltac:(lia)).
  pose proof (Z.div_mod (q / 60) 24 ltac:(lia)).
  pose proof (Z.mod_pos_bound (q / 60) 24 ltac:(lia)).
  apply Z.mod_unique_pos with (q := q / 60 / 24); lia.
Qed.

Lemma Minute_pos : 0 < GoTime.Minute.
Proof. reflexivity. Qed.

(** Moving an instant by whole minutes moves its minute count as much. *)
Lemma minuteOfDay_addTime (t : Time) (k : Z) :
  minuteOfDay (addTime t GoTime.Minute k) = (minuteOfDay t + k) mod 1440.
Proof.
  rewrite !minuteOfDay_instant. unfold addTime, GoTime.Add. cbn [instant].
  rewrite (Z.mul_comm GoTime.Minute k), Z.div_add by (pose proof Minute_pos; lia).
  rewrite Z.add_mod_idemp_l by lia. reflexivity.
Qed.

Lemma minuteOfDay_NewTime (h m : Z) :
  minuteOfDay (NewTime h m) = (h * 60 + m) mod 1440.
Proof.
  rewrite minuteOfDay_instant. unfold NewTime, GoTime.Date000. cbn [instant].
  replace (h * GoTime.Hour + m * GoTime.Minute) with ((h * 60 + m) * GoTime.Minute)
    by (unfold GoTime.Hour; ring).
  rewrite Z.div_mul by (pose proof Minute_pos; lia). reflexivity.
Qed.

Lemma Hour_EmptyTime : Hour EmptyTime = 0.
Proof. reflexivity. Qed.

(** With the implicit day start of midnight the day-begin helper is the
    minute-of-day. *)
Lemma MinutesFromDayBegin_midnight (t : Time) :
  MinutesFromDayBegin t EmptyTime = minuteOfDay t.
Proof.
  unfold MinutesFromDayBegin, minuteOfDay. rewrite Hour_EmptyTime.
  pose proof (Hour_range t).
  destruct (Z.ltb_spec (Hour t) 0); lia.
Qed.

(** The reduction loop leaves small counts alone and brings a larger count
    into [1, 1440] without changing its residue. *)
Lemma reduceToDay_spec (minutes : Z) :
  reduceToDay minutes =
    if minutes <=? minutesInDay then minutes
    else (minutes - 1) mod minutesInDay + 1.
Proof.
  funelim (reduceToDay minutes); unfold minutesInDay in *.
  - rewrite H. clear H Heq Heqcall.
    destruct (Z.leb_spec minutes (60 * 24)); [lia|].
    destruct (Z.leb_spec (minutes - 60 * 24) (60 * 24)).
    + symmetry. replace (minutes - 1) with (minutes - 60 * 24 - 1 + 1 * (60 * 24)) by lia.
      rewrite Z.mod_add by lia. rewrite Z.mod_small; lia.
    + replace (minutes - 1) with (minutes - 60 * 24 - 1 + 1 * (60 * 24)) by lia.
      rewrite Z.mod_add by lia. reflexivity.
  - destruct (Z.leb_spec minutes (60 * 24)); lia.
Qed.

Lemma reduceToDay_nonneg (minutes : Z) :
  0 <= minutes ->
  (0 <= reduceToDay minutes <= 1440) /\
  (reduceToDay minutes) mod 1440 = minutes mod 1440.
Proof.
  intros Hm. rewrite reduceToDay_spec. unfold minutesInDay.
  destruct (Z.leb_spec minutes (60 * 24)).
  - split; [lia | reflexivity].
  - pose proof (Z.mod_pos_bound (minutes - 1) (60 * 24) ltac:(lia)).
    split; [lia|].
    change (60 * 24) with 1440 in *.
    rewrite Z.add_mod_idemp_l by lia. f_equal. lia.
Qed.

(** On a duration of whole minutes there is no rest to divide, and the
    float is the converted count. *)
Lemma MinutesInt_whole (delta : Z) :
  GoTime.MinutesInt (delta * GoTime.Minute) = delta.
Proof.
  unfold GoTime.MinutesInt, GoTime.Minutes.
  rewrite Z.quot_mul, Z.rem_mul by discriminate.
  change (GoFloat.div (GoFloat.ofInt 0) (GoFloat.ofInt (60 * 1000000000)))
    with GoFloat.zero.
  apply toInt_ofInt.
Qed.

(** Where [int(d.Minutes())] is the number of whole minutes of d. *)
Lemma MinutesInt_exact (d : GoTime.Duration) :
  0 <= d ->
  d < 2 ^ 18 * GoTime.Minute \/ d mod GoTime.Minute = 0 ->
  GoTime.MinutesInt d = d / GoTime.Minute.
Proof.
  intros Hd [Hsmall | Hwhole].
  - apply MinutesInt_floor. split; assumption.
  - rewrite (Z.div_mod d GoTime.Minute) at 1 by discriminate.
    rewrite Hwhole, Z.add_0_r, Z.mul_comm. apply MinutesInt_whole.
Qed.

(** ** Comparisons are comparisons of the minute-of-day *)

Ltac by_cases_Z :=
  repeat match goal with
    | |- context [?a <? ?b] => destruct (Z.ltb_spec a b)
    | |- context [?a <=? ?b] => destruct (Z.leb_spec a b)
    | |- context [?a >? ?b] => rewrite (Z.gtb_ltb a b)
    | |- context [?a >=? ?b] => rewrite (Z.geb_leb a b)
    | |- context [?a =? ?b] => destruct (Z.eqb_spec a b)
    end;
  cbn [andb negb orb].

Ltac clock_ranges :=
  repeat match goal with
    | |- context [Hour ?t] =>
        lazymatch goal with
        | _ : 0 <= Hour t < 24 |- _ => fail
        | _ => pose proof (Hour_range t)
        end
    | |- context [Minute ?t] =>
        lazymatch goal with
        | _ : 0 <= Minute t < 60 |- _ => fail
        | _ => pose proof (Minute_range t)
        end
    end.

Lemma IsBefore_le (t other : Time) :
  IsBefore t other = (minuteOfDay t <=? minuteOfDay other).
Proof.
  unfold IsBefore, minuteOfDay. clock_ranges. by_cases_Z; try reflexivity; lia.
Qed.

Lemma IsArgBefore_ge (t other : Time) :
  IsArgBefore t other = (minuteOfDay other <=? minuteOfDay t).
Proof.
  unfold IsArgBefore, minuteOfDay. clock_ranges. by_cases_Z; try reflexivity; lia.
Qed.

Lemma IsBeforeStrict_lt (t other : Time) :
  IsBeforeStrict t other = (minuteOfDay t <? minuteOfDay other).
Proof.
  unfold IsBeforeStrict, minuteOfDay. clock_ranges. by_cases_Z; try reflexivity; lia.
Qed.

Lemma EqualTime_minuteOfDay (t other : Time) :
  EqualTime t other = (minuteOfDay t =? minuteOfDay other).
Proof.
  unfold EqualTime, minuteOfDay. clock_ranges. by_cases_Z; try reflexivity; lia.
Qed.

(** The order of minutes-of-day is the order that compares the hours first
    and the minutes on a tie. *)
Lemma minuteOfDay_le_lex (t other : Time) :
  minuteOfDay t <= minuteOfDay other <->
  Hour t < Hour other \/ (Hour t = Hour other /\ Minute t <= Minute other).
Proof.
  unfold minuteOfDay. clock_ranges. lia.
Qed.

Lemma Hour_NewTime (h m : Z) :
  0 <= h < 24 -> 0 <= m < 60 -> Hour (NewTime h m) = h.
Proof.
  intros Hh Hm. unfold Hour, NewTime, GoTime.hourOf, GoTime.Date000. cbn [instant].
  rewrite Z.div_add_l by discriminate.
  rewrite (Z.div_small (m * GoTime.Minute))
    by (unfold GoTime.Hour, GoTime.Minute, GoTime.Second, GoTime.Nanosecond; lia).
  rewrite Z.add_0_r. apply Z.mod_small. lia.
Qed.

Lemma Minute_NewTime (h m : Z) :
  0 <= m < 60 -> Minute (NewTime h m) = m.
Proof.
  intros Hm. unfold Minute, NewTime, GoTime.minuteOf, GoTime.Date000. cbn [instant].
  replace (h * GoTime.Hour + m * GoTime.Minute) with ((h * 60 + m) * GoTime.Minute)
    by (unfold GoTime.Hour; ring).
  rewrite Z.div_mul by discriminate.
  rewrite Z.add_comm, Z.mod_add by lia. apply Z.mod_small. lia.
Qed.

(** ** The day-begin helpers *)

(** C1 (the code departs from the claim).  At 01:00 with the day starting at
    03:00 the hour of the time is below the hour of the day start; the code
    computes (24 - 3 - 1) * 60 + 0 = 1200 minutes, while 22 hours have passed
    since 03:00 and the stated formula (24 - 3 + 1) * 60 + 0 gives 1320.
    The second half, minutes till the day end = 1440 - minutes from its
    begin, holds there as everywhere. *)
Theorem MinutesFromDayBegin_0100_from_0300 :
  let t := NewTime 1 0 in
  let s := NewTime 3 0 in
  Hour t < Hour s /\
  MinutesFromDayBegin t s = 1200 /\
  (24 - Hour s + Hour t) * 60 + Minute t = 1320 /\
  MinutesTillDayEnd t s = 1440 - MinutesFromDayBegin t s.
Proof. vm_compute. repeat split; reflexivity. Qed.

(** What the code computes in general: the hour of the time is subtracted
    where it is meant to be added, so the result is short by two times that
    hour whenever the time is before the day start. *)
Lemma MinutesFromDayBegin_before (t s : Time) :
  Hour t < Hour s ->
  MinutesFromDayBegin t s = (24 - Hour s + Hour t) * 60 + Minute t - 120 * Hour t.
Proof.
  intros Hlt. unfold MinutesFromDayBegin.
  destruct (Z.ltb_spec (Hour t) (Hour s)); lia.
Qed.

Lemma MinutesFromDayBegin_after (t s : Time) :
  Hour s <= Hour t ->
  MinutesFromDayBegin t s = (Hour t - Hour s) * 60 + Minute t.
Proof.
  intros Hle. unfold MinutesFromDayBegin.
  destruct (Z.ltb_spec (Hour t) (Hour s)); lia.
Qed.

Lemma MinutesTillDayEnd_complement (t s : Time) :
  MinutesTillDayEnd t s = 1440 - MinutesFromDayBegin t s.
Proof. reflexivity. Qed.

(** ** The sorting-priority classifier *)

(** C4.  The classifier is the two-case decision table over the inclusive
    order of times: with now <= dayStart, Before when candidate <= dayStart
    and candidate <= now, After when candidate <= dayStart and candidate >
    now, LongAgo when candidate > dayStart; with now > dayStart, Before when
    candidate >= dayStart and candidate <= now, After when candidate >=
    dayStart and candidate > now, NotSoon when candidate < dayStart. *)
Theorem GetTimeSortingPriority_table (candidate now dayStart : Time) :
  GetTimeSortingPriority candidate now dayStart =
    if minuteOfDay now <=? minuteOfDay dayStart then
      if minuteOfDay candidate <=? minuteOfDay dayStart then
        if minuteOfDay candidate <=? minuteOfDay now
        then BeforePriority else AfterPriority
      else LongAgoPriority
    else
      if minuteOfDay candidate <? minuteOfDay dayStart then NotSoonPriority
      else
        if minuteOfDay candidate <=? minuteOfDay now
        then BeforePriority else AfterPriority.
Proof.
  unfold GetTimeSortingPriority, IsAfter.
  rewrite !IsBefore_le, !IsArgBefore_ge.
  by_cases_Z; try reflexivity; lia.
Qed.

(** C2, as stated, fails: with the day starting at 04:00 and the clock at
    00:15, a candidate equal to the day start is classified After. *)
Lemma dayStart_candidate_not_Before :
  GetTimeSortingPriority (NewTime 4 0) (NewTime 0 15) (NewTime 4 0)
    <> BeforePriority.
Proof. vm_compute. discriminate. Qed.

(** C2, amended.  A candidate equal to now is always Before; a candidate
    equal to the day start is Before when the day start is not after now,
    and After when now is strictly before the day start. *)
Theorem GetTimeSortingPriority_ties (now dayStart : Time) :
  GetTimeSortingPriority now now dayStart = BeforePriority /\
  GetTimeSortingPriority dayStart now dayStart =
    if minuteOfDay dayStart <=? minuteOfDay now
    then BeforePriority else AfterPriority.
Proof.
  unfold GetTimeSortingPriority, IsAfter.
  rewrite !IsBefore_le, !IsArgBefore_ge.
  split; by_cases_Z; try reflexivity; lia.
Qed.

(** ** Adding and subtracting a duration *)

Lemma AddTime_minuteOfDay (t : Time) (delta : Z) :
  0 <= delta ->
  minuteOfDay (AddTime t (delta * GoTime.Minute)) = (minuteOfDay t + delta) mod 1440.
Proof.
  intros Hd. unfold AddTime, MinutesTillDayEnd, minutesInDay.
  rewrite MinutesInt_whole, MinutesFromDayBegin_midnight.
  destruct (reduceToDay_nonneg delta Hd) as [_ Hres].
  rewrite <- (Z.add_mod_idemp_r (minuteOfDay t) delta), <- Hres, Z.add_mod_idemp_r by lia.
  destruct (Z.ltb_spec (reduceToDay delta) (60 * 24 - minuteOfDay t)).
  - apply minuteOfDay_addTime.
  - rewrite minuteOfDay_addTime, minuteOfDay_NewTime.
    rewrite Z.add_mod_idemp_l by lia.
    replace (0 * 60 + 0 + (reduceToDay delta - (60 * 24 - minuteOfDay t)))
      with (minuteOfDay t + reduceToDay delta + (-1) * 1440) by lia.
    apply Z.mod_add. lia.
Qed.

Lemma SubTime_minuteOfDay (t : Time) (delta : Z) :
  0 <= delta ->
  minuteOfDay (SubTime t (delta * GoTime.Minute)) = (minuteOfDay t - delta) mod 1440.
Proof.
  intros Hd. unfold SubTime, subTime.
  rewrite MinutesInt_whole, MinutesFromDayBegin_midnight.
  destruct (reduceToDay_nonneg delta Hd) as [_ Hres].
  rewrite <- (Zminus_mod_idemp_r (minuteOfDay t) delta), <- Hres, Zminus_mod_idemp_r.
  destruct (Z.ltb_spec (reduceToDay delta) (minuteOfDay t)).
  - rewrite minuteOfDay_addTime. f_equal; lia.
  - rewrite minuteOfDay_addTime, minuteOfDay_NewTime.
    rewrite Z.add_mod_idemp_l by lia.
    replace (23 * 60 + 59 + -1 * (reduceToDay delta - minuteOfDay t - 1))
      with (minuteOfDay t - reduceToDay delta + 1 * 1440) by lia.
    apply Z.mod_add. lia.
Qed.

(** [AddTime] and [SubTime] read their duration through
    [int(howMuch.Minutes())] only. *)
Lemma AddTime_SubTime_minutes (t : Time) (d : GoTime.Duration) :
  AddTime t d = AddTime t (GoTime.MinutesInt d * GoTime.Minute) /\
  SubTime t d = SubTime t (GoTime.MinutesInt d * GoTime.Minute).
Proof.
  unfold AddTime, SubTime. rewrite MinutesInt_whole. split; reflexivity.
Qed.

(** C5, as stated, fails: [int(howMuch.Minutes())] goes through a float64
    sum, which from 2^18 minutes on rounds a duration one nanosecond short
    of a minute up.  262144m59.999999999s has 262144 whole minutes and is
    counted as 262145: added to 00:00 it gives 01:05 and subtracted 22:55,
    where (m + 262144) mod 1440 is 01:04 and (m - 262144) mod 1440 is
    22:56. *)
Lemma AddTime_SubTime_round_up_a_minute :
  0 <= 262144 * GoTime.Minute + 59 * GoTime.Second + 999999999 * GoTime.Nanosecond /\
  (262144 * GoTime.Minute + 59 * GoTime.Second + 999999999 * GoTime.Nanosecond)
    / GoTime.Minute = 262144 /\
  minuteOfDay (AddTime (NewTime 0 0)
                 (262144 * GoTime.Minute + 59 * GoTime.Second
                  + 999999999 * GoTime.Nanosecond)) = 1 * 60 + 5 /\
  (minuteOfDay (NewTime 0 0) + 262144) mod 1440 = 1 * 60 + 4 /\
  minuteOfDay (SubTime (NewTime 0 0)
                 (262144 * GoTime.Minute + 59 * GoTime.Second
                  + 999999999 * GoTime.Nanosecond)) = 22 * 60 + 55 /\
  (minuteOfDay (NewTime 0 0) - 262144) mod 1440 = 22 * 60 + 56.
Proof. vm_compute. repeat split; discriminate. Qed.

(** C5, amended.  For a non-negative duration d that is shorter than 2^18
    minutes (182 days) or a whole number of minutes, of any length, AddTime
    gives the time with minute-of-day (m + delta) mod 1440 and SubTime the
    time with minute-of-day (m - delta) mod 1440, where delta is the number
    of whole minutes of d: its seconds and their fractions are ignored. *)
Theorem AddTime_SubTime_wrap (t : Time) (d : GoTime.Duration) :
  0 <= d ->
  d < 2 ^ 18 * GoTime.Minute \/ d mod GoTime.Minute = 0 ->
  minuteOfDay (AddTime t d) = (minuteOfDay t + d / GoTime.Minute) mod 1440 /\
  minuteOfDay (SubTime t d) = (minuteOfDay t - d / GoTime.Minute) mod 1440.
Proof.
  intros Hd Hrange.
  destruct (AddTime_SubTime_minutes t d) as [-> ->].
  rewrite (MinutesInt_exact d Hd Hrange).
  assert (Hdelta : 0 <= d / GoTime.Minute) by (apply Z.div_pos; [assumption | reflexivity]).
  split.
  - apply AddTime_minuteOfDay; assumption.
  - apply SubTime_minuteOfDay; assumption.
Qed.

(** 10:30 plus and minus 25 hours and 59.999999999 seconds: the 1500 whole
    minutes count. *)
Lemma AddTime_SubTime_wrap_25h :
  0 <= 25 * GoTime.Hour + 59 * GoTime.Second + 999999999 * GoTime.Nanosecond /\
  25 * GoTime.Hour + 59 * GoTime.Second + 999999999 * GoTime.Nanosecond
    < 2 ^ 18 * GoTime.Minute /\
  minuteOfDay (AddTime (NewTime 10 30)
                 (25 * GoTime.Hour + 59 * GoTime.Second + 999999999 * GoTime.Nanosecond))
    = 11 * 60 + 30 /\
  minuteOfDay (SubTime (NewTime 10 30)
                 (25 * GoTime.Hour + 59 * GoTime.Second + 999999999 * GoTime.Nanosecond))
    = 9 * 60 + 30.
Proof.
  split; [vm_compute; discriminate |]. split; [reflexivity |].
  exact (AddTime_SubTime_wrap (NewTime 10 30)
           (25 * GoTime.Hour + 59 * GoTime.Second + 999999999 * GoTime.Nanosecond)
           ltac:(vm_compute; discriminate) (or_introl eq_refl)).
Defined.

Example AddTime_25h :
  let r := AddTime (NewTime 10 30) (25 * GoTime.Hour) in Hour r = 11 /\ Minute r = 30.
Proof. vm_compute. split; reflexivity. Qed.

Example SubTime_25h :
  let r := SubTime (NewTime 10 30) (25 * GoTime.Hour) in Hour r = 9 /\ Minute r = 30.
Proof. vm_compute. split; reflexivity. Qed.

Example AddTime_full_day_at_midnight :
  let r := AddTime (NewTime 0 0) (24 * GoTime.Hour) in Hour r = 0 /\ Minute r = 0.
Proof. vm_compute. split; reflexivity. Qed.

(** The tables of the package's tests of [AddTime] and [SubTime], from
    10:30. *)
Example AddTime_test_table :
  map (fun d => TimeString (AddTime (NewTime 10 30) d))
      [GoTime.Hour * 3 + GoTime.Minute * 45;
       GoTime.Hour * 24 + GoTime.Hour * 3 + GoTime.Minute * 45;
       GoTime.Hour * 23 + GoTime.Minute * 45;
       GoTime.Hour * 24; GoTime.Hour * 25; GoTime.Minute * 30; GoTime.Minute * 60]
    = ["14:15"; "14:15"; "10:15"; "10:30"; "11:30"; "11:00"; "11:30"]%string.
Proof. vm_compute. reflexivity. Qed.

Example SubTime_test_table :
  map (fun d => TimeString (SubTime (NewTime 10 30) d))
      [GoTime.Hour * 24 + GoTime.Hour * 2 + GoTime.Minute * 45;
       GoTime.Hour * 23 + GoTime.Minute * 45;
       GoTime.Hour * 24; GoTime.Hour * 25; GoTime.Minute * 30; GoTime.Minute * 60]
    = ["07:45"; "10:45"; "10:30"; "09:30"; "10:00"; "09:30"]%string.
Proof. vm_compute. reflexivity. Qed.

(** ** The circular difference *)

Lemma circular_diff (a b : Z) :
  0 <= a < 1440 -> 0 <= b < 1440 ->
  (b - a) mod 1440 = if b <? a then b - a + 1440 else b - a.
Proof.
  intros Ha Hb. destruct (Z.ltb_spec b a).
  - symmetry. apply Z.mod_unique_pos with (q := -1); lia.
  - apply Z.mod_small. lia.
Qed.

Lemma RangeUp_circular (low high : Time) :
  RangeUp low high = ((minuteOfDay high - minuteOfDay low) mod 1440) * GoTime.Minute.
Proof.
  rewrite circular_diff by apply minuteOfDay_range.
  unfold RangeUp, minuteOfDay. clock_ranges.
  unfold GoTime.Hour, GoTime.Minute, GoTime.Second, GoTime.Nanosecond.
  destruct (Z.ltb_spec (Hour high) (Hour low));
    destruct (Z.ltb_spec (Minute high) (Minute low));
    cbv beta iota zeta; by_cases_Z; lia.
Qed.

Lemma SmartDiff_circular (low high : Time) :
  SmartDiff low high = ((minuteOfDay high - minuteOfDay low) mod 1440) * GoTime.Minute.
Proof.
  rewrite circular_diff by apply minuteOfDay_range.
  unfold SmartDiff, MinutesTillDayEnd, minutesInDay.
  rewrite !MinutesFromDayBegin_midnight.
  unfold GoTime.Minute, GoTime.Second, GoTime.Nanosecond.
  by_cases_Z; lia.
Qed.

(** C6.  RangeUp and SmartDiff return the same duration,
    ((high's minute-of-day - low's minute-of-day) mod 1440) minutes; it lies
    in [0, 1439] minutes, is 0 when low equals high and is 1440 minutes minus
    the range in the other direction when they differ. *)
Theorem RangeUp_SmartDiff_agree (low high : Time) :
  RangeUp low high = SmartDiff low high /\
  RangeUp low high =
    ((minuteOfDay high - minuteOfDay low) mod 1440) * GoTime.Minute /\
  (0 <= RangeUp low high <= 1439 * GoTime.Minute) /\
  RangeUp low high =
    if EqualTime low high then 0
    else 1440 * GoTime.Minute - RangeUp high low.
Proof.
  split; [rewrite RangeUp_circular, SmartDiff_circular; reflexivity|].
  split; [apply RangeUp_circular|].
  rewrite EqualTime_minuteOfDay, !RangeUp_circular.
  pose proof (minuteOfDay_range low). pose proof (minuteOfDay_range high).
  rewrite !circular_diff by assumption.
  unfold GoTime.Minute, GoTime.Second, GoTime.Nanosecond.
  split; by_cases_Z; lia.
Qed.

Example RangeUp_2230_0145 :
  RangeUp (NewTime 22 30) (NewTime 1 45) = 3 * GoTime.Hour + 15 * GoTime.Minute.
Proof. reflexivity. Qed.

(** ** Rounding to the five-minute grid *)

Lemma roundLoop_minute (m : Z) :
  0 <= m < 60 ->
  roundLoop 6 1 m = m / 10 * 10 + (if m mod 10 <=? 5 then 0 else 5).
Proof.
  intros Hm. cbn [roundLoop].
  pose proof (Z.div_mod m 10 ltac:(lia)).
  pose proof (Z.mod_pos_bound m 10 ltac:(lia)).
  by_cases_Z; lia.
Qed.

Lemma roundLoop_range (m : Z) :
  0 <= m < 60 -> 0 <= roundLoop 6 1 m < 60.
Proof.
  intros Hm. rewrite roundLoop_minute by assumption.
  pose proof (Z.div_mod m 10 ltac:(lia)).
  pose proof (Z.mod_pos_bound m 10 ltac:(lia)).
  by_cases_Z; lia.
Qed.

Lemma minuteOfDay_NewFromTime (i : GoTime.Instant) :
  minuteOfDay (NewFromTime i) = minuteOfDay (mkTime i true).
Proof.
  unfold NewFromTime.
  change (mkTime (GoTime.Date000 (GoTime.hourOf i) (GoTime.minuteOf i)) true)
    with (NewTime (Hour (mkTime i true)) (Minute (mkTime i true))).
  unfold minuteOfDay at 1.
  rewrite Hour_NewTime, Minute_NewTime
    by (apply Hour_range || apply Minute_range).
  reflexivity.
Qed.

(** C10.  RoundDownToFives keeps the hour and maps minute m, with
    q = m div 10 and r = m mod 10, to q * 10 + (0 if r <= 5 else 5);
    RoundUpToFives is that time plus five minutes, carried through the hour
    and wrapped around midnight. *)
Theorem RoundToFives_spec (t : Time) :
  let m := Minute t in
  let q := m / 10 in
  let r := m mod 10 in
  Hour (RoundDownToFives t) = Hour t /\
  Minute (RoundDownToFives t) = q * 10 + (if r <=? 5 then 0 else 5) /\
  minuteOfDay (RoundUpToFives t) = (minuteOfDay (RoundDownToFives t) + 5) mod 1440.
Proof.
  cbv zeta. unfold RoundDownToFives.
  pose proof (Hour_range t) as Hh. pose proof (Minute_range t) as Hm.
  pose proof (roundLoop_range (Minute t) Hm) as Hr.
  split; [apply Hour_NewTime; assumption|].
  split; [rewrite Minute_NewTime by assumption; apply roundLoop_minute; assumption|].
  unfold RoundUpToFives, RoundDownToFives.
  rewrite minuteOfDay_NewFromTime.
  change (mkTime (GoTime.Add (instant (NewTime (Hour t) (roundLoop 6 1 (Minute t))))
                    (5 * GoTime.Minute)) true)
    with (addTime (NewTime (Hour t) (roundLoop 6 1 (Minute t))) GoTime.Minute 5).
  apply minuteOfDay_addTime.
Qed.

Example RoundDownToFives_15 : Minute (RoundDownToFives (NewTime 10 15)) = 10.
Proof. reflexivity. Qed.
Example RoundDownToFives_10 : Minute (RoundDownToFives (NewTime 10 10)) = 10.
Proof. reflexivity. Qed.
Example RoundDownToFives_5 : Minute (RoundDownToFives (NewTime 10 5)) = 0.
Proof. reflexivity. Qed.
Example RoundUpToFives_2358 :
  let r := RoundUpToFives (NewTime 23 58) in Hour r = 0 /\ Minute r = 0.
Proof. vm_compute. split; reflexivity. Qed.

(** ** Parsing a time *)

Example ParseTime_colon : ParseTime "10:30" = Ok (NewTime 10 30).
Proof. reflexivity. Qed.
Example ParseTime_bare : ParseTime "1030" = Ok (NewTime 10 30).
Proof. reflexivity. Qed.
Example ParseTime_hour_99 : ParseTime "9999" = Err (InvalidHour 99).
Proof. reflexivity. Qed.
Example ParseTime_minute_61 : ParseTime "23:61" = Err (InvalidMinute 61).
Proof. reflexivity. Qed.
Example ParseTime_slashes : ParseTime "1/1/1" = Err (InvalidTime "1/1/1").
Proof. reflexivity. Qed.

Lemma parseTimeLoop_first (s : string) (pre post : list ascii) (sep : ascii)
      (r : outcome Time TimeError) :
  (forall c, In c pre -> timeAttempt s c = None) ->
  timeAttempt s sep = Some r ->
  parseTimeLoop s (pre ++ sep :: post) = r.
Proof.
  induction pre as [|c pre IH]; intros Hpre Hsep; simpl.
  - rewrite Hsep. reflexivity.
  - rewrite (Hpre c) by (left; reflexivity).
    apply IH; [|assumption].
    intros c' Hin. apply Hpre. right. assumption.
Qed.

Lemma parseTimeLoop_skipped (s : string) (seps : list ascii) :
  (forall c, In c seps -> timeAttempt s c = None) ->
  parseTimeLoop s seps = Err (InvalidTime s).
Proof.
  induction seps as [|c seps IH]; intros Hall; cbn [parseTimeLoop].
  - reflexivity.
  - rewrite (Hall c) by (left; reflexivity).
    apply IH. intros c' Hin. apply Hall. right. assumption.
Qed.

Lemma timeAttempt_None (s : string) (sep : ascii) :
  timeTokens s sep = None -> timeAttempt s sep = None.
Proof. unfold timeAttempt. intros ->. reflexivity. Qed.

Lemma ParseTime_nonempty (s : string) :
  s <> EmptyString -> ParseTime s = parseTimeLoop s timeSeparators.
Proof.
  intros Hs. unfold ParseTime.
  destruct (String.eqb_spec s EmptyString); [contradiction | reflexivity].
Qed.

(** C7, as stated, fails: on "10 75:30" the space yields minute 75 and
    ParseTime returns that error, although the colon alone would give
    10:30. *)
Lemma ParseTime_error_despite_good_separator :
  ~ ((exists e, ParseTime "10 75:30" = Err e) ->
     forall sep, In sep timeSeparators ->
     forall t, timeAttempt "10 75:30" sep <> Some (Ok t)).
Proof.
  intros Hclaim.
  apply (Hclaim (ex_intro _ (InvalidMinute 75) eq_refl) ":"%char
           (or_intror (or_introl eq_refl)) (NewTime 10 30)).
  reflexivity.
Qed.

(** The head of the loop body in terms of the split and of the length. *)
Lemma timeTokens_skipped (s : string) (c : ascii) :
  List.length (GoStrings.Split s c) <> 2%nat -> GoStrings.len s <> 4 ->
  timeTokens s c = None.
Proof.
  intros Hsplit Hlen. unfold timeTokens.
  destruct (Z.eqb_spec (GoStrings.len s) 4); [contradiction|].
  destruct (GoStrings.Split s c) as [|x [|y [|z rest]]]; try reflexivity.
  exfalso. apply Hsplit. reflexivity.
Qed.

Lemma timeTokens_cut (s : string) (c : ascii) :
  List.length (GoStrings.Split s c) <> 2%nat -> GoStrings.len s = 4 ->
  timeTokens s c = Some (String.substring 0 2 s, String.substring 2 2 s).
Proof.
  intros Hsplit Hlen. unfold timeTokens. rewrite Hlen. cbn [Z.eqb Pos.eqb].
  destruct (GoStrings.Split s c) as [|x [|y [|z rest]]]; try reflexivity.
  exfalso. apply Hsplit. reflexivity.
Qed.

(** C7, amended.  ParseTime answers at the first separator of the list that
    is not passed over.  A separator is passed over when the split of s by
    it does not yield two tokens and s is not four bytes long.  At the
    first other separator the tokens are the two pieces of the split, or,
    when the split does not yield two pieces, the first two and the last
    two bytes of the four; whatever they give is the answer, be it a field
    that is no number, an hour outside [0,23] or a minute outside [0,59],
    and no later separator is tried.  When every separator is passed over
    the parse fails as an invalid time. *)
Theorem ParseTime_first_split (s : string) :
  s <> EmptyString ->
  (forall (pre post : list ascii) (sep : ascii) (a b : string),
      timeSeparators = pre ++ sep :: post ->
      (forall c, In c pre ->
         List.length (GoStrings.Split s c) <> 2%nat /\ GoStrings.len s <> 4) ->
      GoStrings.Split s sep = [a; b] \/
      (List.length (GoStrings.Split s sep) <> 2%nat /\ GoStrings.len s = 4 /\
       a = String.substring 0 2 s /\ b = String.substring 2 2 s) ->
      let hour := GoStrings.Atoi (prepareNumber a false) in
      let minute := GoStrings.Atoi (prepareNumber b false) in
      (hour = None -> ParseTime s = Err (ParseHourFailed (prepareNumber a false))) /\
      (forall h, hour = Some h -> h < 0 \/ 23 < h ->
         ParseTime s = Err (InvalidHour h)) /\
      (forall h, hour = Some h -> 0 <= h <= 23 -> minute = None ->
         ParseTime s = Err (ParseMinuteFailed (prepareNumber b false))) /\
      (forall h m, hour = Some h -> 0 <= h <= 23 -> minute = Some m ->
         m < 0 \/ 59 < m -> ParseTime s = Err (InvalidMinute m)) /\
      (forall h m, hour = Some h -> 0 <= h <= 23 -> minute = Some m ->
         0 <= m <= 59 -> ParseTime s = Ok (NewTime h m))) /\
  ((forall c, In c timeSeparators ->
      List.length (GoStrings.Split s c) <> 2%nat /\ GoStrings.len s <> 4) ->
   ParseTime s = Err (InvalidTime s)).
Proof.
  intros Hs. rewrite (ParseTime_nonempty s Hs). split.
  - intros pre post sep a b Hseps Hpre Htokens. cbv zeta.
    assert (Hloop : parseTimeLoop s timeSeparators = timeOfTokens (a, b)).
    { rewrite Hseps. apply parseTimeLoop_first.
      - intros c Hin. apply timeAttempt_None.
        destruct (Hpre c Hin) as [Hsplit Hlen]. apply timeTokens_skipped; assumption.
      - unfold timeAttempt.
        destruct Htokens as [Hsplit | (Hsplit & Hlen & -> & ->)].
        + unfold timeTokens. rewrite Hsplit. reflexivity.
        + rewrite (timeTokens_cut s sep Hsplit Hlen). reflexivity. }
    rewrite Hloop. unfold timeOfTokens. cbv beta iota zeta.
    repeat split.
    + intros ->. reflexivity.
    + intros h -> Hh. rewrite Z.gtb_ltb.
      destruct (Z.ltb_spec h 0); [reflexivity|].
      destruct (Z.ltb_spec 23 h); [reflexivity | lia].
    + intros h -> Hh ->. rewrite Z.gtb_ltb.
      destruct (Z.ltb_spec h 0); [lia|]. destruct (Z.ltb_spec 23 h); [lia|].
      reflexivity.
    + intros h m -> Hh -> Hm. rewrite !Z.gtb_ltb.
      destruct (Z.ltb_spec h 0); [lia|]. destruct (Z.ltb_spec 23 h); [lia|].
      cbn [orb].
      destruct (Z.ltb_spec m 0); [reflexivity|].
      destruct (Z.ltb_spec 59 m); [reflexivity | lia].
    + intros h m -> Hh -> Hm. rewrite !Z.gtb_ltb.
      destruct (Z.ltb_spec h 0); [lia|]. destruct (Z.ltb_spec 23 h); [lia|].
      cbn [orb].
      destruct (Z.ltb_spec m 0); [lia|]. destruct (Z.ltb_spec 59 m); [lia|].
      reflexivity.
  - intros Hall. apply parseTimeLoop_skipped.
    intros c Hin. apply timeAttempt_None.
    destruct (Hall c Hin) as [Hsplit Hlen]. apply timeTokens_skipped; assumption.
Qed.

(** On "10:75" the space is passed over (one piece, five bytes) and the
    colon answers with the minute 75; on "10 75:30" the space answers with
    the minute 75 and the colon is not tried; the four bytes of "1030" are
    cut 2+2 at the space already; "10h30" is passed over by every
    separator. *)
Lemma ParseTime_first_split_at_colon :
  (GoStrings.Split "10:75" " " = ["10:75"%string] /\ GoStrings.len "10:75" = 5) /\
  GoStrings.Split "10:75" ":" = ["10"%string; "75"%string] /\
  ParseTime "10:75" = Err (InvalidMinute 75) /\
  GoStrings.Split "10 75:30" " " = ["10"%string; "75:30"%string] /\
  ParseTime "10 75:30" = Err (InvalidMinute 75) /\
  (GoStrings.Split "1030" " " = ["1030"%string] /\ GoStrings.len "1030" = 4) /\
  ParseTime "1030" = Ok (NewTime 10 30) /\
  ParseTime "10h30" = Err (InvalidTime "10h30").
Proof.
  split; [split; reflexivity|]. split; [reflexivity|].
  split; [|split; [reflexivity|split; [|split; [split; reflexivity|split]]]].
  - refine (proj1 (proj2 (proj2 (proj2
             (proj1 (ParseTime_first_split "10:75" ltac:(discriminate))
                [" "%char] ["-"; "_"; ","; "."]%char ":"%char "10"%string "75"%string
                eq_refl _ (or_introl eq_refl))))) 10 75 eq_refl ltac:(lia) eq_refl
             ltac:(lia)).
    intros c [<- | []]. split; [cbn; lia | discriminate].
  - refine (proj1 (proj2 (proj2 (proj2
             (proj1 (ParseTime_first_split "10 75:30" ltac:(discriminate))
                [] [":"; "-"; "_"; ","; "."]%char " "%char "10"%string "75:30"%string
                eq_refl _ (or_introl eq_refl))))) 10 75 eq_refl ltac:(lia) eq_refl
             ltac:(lia)).
    intros c [].
  - refine (proj2 (proj2 (proj2 (proj2
             (proj1 (ParseTime_first_split "1030" ltac:(discriminate))
                [] [":"; "-"; "_"; ","; "."]%char " "%char "10"%string "30"%string
                eq_refl _ (or_intror _))))) 10 30 eq_refl ltac:(lia) eq_refl ltac:(lia)).
    + intros c [].
    + split; [cbn; lia|]. split; [reflexivity|]. split; reflexivity.
  - apply (proj2 (ParseTime_first_split "10h30" ltac:(discriminate))).
    intros c Hin. split; [|discriminate].
    cbn in Hin. repeat (destruct Hin as [<- | Hin]; [cbn; lia|]). contradiction.
Defined.

(** ** The offset validator *)

Example ParseUTCOffset_plus_3_30 :
  ParseUTCOffset "+3 30" = Ok (FixedZone "UTC+3:30" 12600).
Proof. reflexivity. Qed.
Example ParseUTCOffset_plus_14 :
  ParseUTCOffset "+14" = Ok (FixedZone "UTC+14" 50400).
Proof. reflexivity. Qed.
Example ParseUTCOffset_plus_3_31 :
  ParseUTCOffset "+3 31" = Err (UnsupportedMinutes 31).
Proof. reflexivity. Qed.
Example ParseUTCOffset_minus_14 :
  ParseUTCOffset "-14" = Err (HoursAboveThreshold 12 "14").
Proof. reflexivity. Qed.
Example ParseUTCOffset_minus_3_colon_30 :
  ParseUTCOffset "-3:30" = Ok (FixedZone "UTC-3:30" (-12600)).
Proof. reflexivity. Qed.
Example ParseUTCOffset_three_groups :
  ParseUTCOffset "+13 45 33" = Err (InvalidInput "13 45 33").
Proof. reflexivity. Qed.

(** Nothing is left of "UTC" once the token is removed, and the code reads
    the first byte of what is left. *)
Example ParseUTCOffset_bare_UTC : ParseUTCOffset "UTC" = Panic.
Proof. reflexivity. Qed.

(** C3 (the code departs from the claim).  The hours are compared with the
    threshold from above only, and [Atoi] reads a sign of its own: "+-20"
    passes every check and yields the offset -72000 seconds, twenty hours
    west, which is none of the offsets the validator is written for. *)
Theorem ParseUTCOffset_signed_hours :
  ParseUTCOffset "+-20" = Ok (FixedZone "UTC+-20" (-72000)) /\
  knownOffset (-72000) = false.
Proof. split; reflexivity. Qed.

(** ** Parsing a timezone *)

(** C9, as stated, fails: with no zone database at hand, "+3" is accepted
    by the offset grammar and refused by ParseTimezone. *)
Lemma ParseTimezone_refuses_short_offset :
  ~ (forall (LoadLocation : string -> option Location) (now : Z) (s : string),
        LoadLocation s = None ->
        (exists l, ParseUTCOffset s = Ok l) ->
        exists tz, ParseTimezone LoadLocation now s = Ok tz).
Proof.
  intros Hclaim.
  destruct (Hclaim (fun _ => None) 0 "+3"%string eq_refl
              (ex_intro _ (FixedZone "UTC+3" 10800) eq_refl)) as [tz Htz].
  discriminate Htz.
Qed.

(** C9, amended.  A string shorter than three bytes is refused before any
    lookup.  For a string of at least three bytes on which the named-zone
    lookup fails, ParseTimezone succeeds whenever ParseUTCOffset accepts
    the string, with the timezone of the parsed location, and it returns an
    error exactly when ParseUTCOffset does, the same one. *)
Theorem ParseTimezone_fallback
        (LoadLocation : string -> option Location) (now : Z) (s : string) :
  (GoStrings.len s < 3 ->
   ParseTimezone LoadLocation now s = Err (InvalidTimezone s)) /\
  (3 <= GoStrings.len s ->
   LoadLocation s = None ->
   (forall l, ParseUTCOffset s = Ok l ->
              ParseTimezone LoadLocation now s = Ok (NewTimezone now (Some l))) /\
   (forall e, ParseTimezone LoadLocation now s = Err e <-> ParseUTCOffset s = Err e)).
Proof.
  unfold ParseTimezone. split.
  - intros Hlen. destruct (Z.ltb_spec (GoStrings.len s) 3); [reflexivity | lia].
  - intros Hlen Hload. destruct (Z.ltb_spec (GoStrings.len s) 3); [lia|].
    rewrite Hload. split.
    + intros l ->. reflexivity.
    + intros e. destruct (ParseUTCOffset s); split; intros He;
        try discriminate He; congruence.
Qed.

(** "+3 30" is long enough and is no zone name. *)
Lemma ParseTimezone_fallback_plus_3_30 :
  3 <= GoStrings.len "+3 30" /\
  ParseTimezone (fun _ => None) 0 "+3 30"
    = Ok (NewTimezone 0 (Some (FixedZone "UTC+3:30" 12600))).
Proof.
  split; [vm_compute; discriminate|].
  apply (proj2 (ParseTimezone_fallback (fun _ => None) 0 "+3 30")).
  - vm_compute. discriminate.
  - reflexivity.
  - reflexivity.
Defined.

(** ** The constructors of a timezone *)

Lemma wrap64_small (z : Z) : - 2 ^ 63 <= z < 2 ^ 63 -> wrap64 z = z.
Proof.
  intros Hz. unfold wrap64. rewrite Z.mod_small; lia.
Qed.

Lemma Split_nonempty (s : string) (sep : ascii) : GoStrings.Split s sep <> [].
Proof.
  destruct s as [|c s]; cbn [GoStrings.Split]; [discriminate|].
  destruct (Ascii.eqb c sep); [discriminate|].
  destruct (GoStrings.Split s sep); discriminate.
Qed.

(** A run of decimal digits holds no colon, so splitting at colons leaves it
    in front of the first piece of what follows. *)
Lemma Split_digits (d : uint) (rest piece : string) (pieces : list string) :
  GoStrings.Split rest ":" = piece :: pieces ->
  GoStrings.Split (NilEmpty.string_of_uint d ++ rest) ":"
    = (NilEmpty.string_of_uint d ++ piece)%string :: pieces.
Proof.
  intros Hrest.
  induction d; cbn [NilEmpty.string_of_uint append GoStrings.Split Ascii.eqb Bool.eqb];
    try rewrite IHd; try assumption; reflexivity.
Qed.

Lemma append_empty (s : string) : (s ++ "")%string = s.
Proof. induction s as [|c s IH]; cbn [append]; [reflexivity | rewrite IH; reflexivity]. Qed.

Lemma Split_digits_alone (d : uint) :
  GoStrings.Split (NilEmpty.string_of_uint d) ":" = [NilEmpty.string_of_uint d].
Proof.
  rewrite <- (append_empty (NilEmpty.string_of_uint d)) at 1.
  rewrite (Split_digits d "" "" []) by reflexivity.
  rewrite append_empty. reflexivity.
Qed.

Lemma Split_digits_colon_digits (dh dm : uint) :
  GoStrings.Split (NilEmpty.string_of_uint dh ++ ":" ++ NilEmpty.string_of_uint dm) ":"
    = [NilEmpty.string_of_uint dh; NilEmpty.string_of_uint dm].
Proof.
  rewrite (Split_digits dh _ "" [NilEmpty.string_of_uint dm]).
  - rewrite append_empty. reflexivity.
  - cbn [append GoStrings.Split Ascii.eqb Bool.eqb]. rewrite Split_digits_alone. reflexivity.
Qed.

(** Printing a natural number gives a non-empty run of digits that reads
    back as the number. *)
Lemma Itoa_digits (n : Z) :
  0 <= n ->
  exists d, GoStrings.Itoa n = NilEmpty.string_of_uint d /\ readNumber (NilEmpty.string_of_uint d) = Some n.
Proof.
  intros Hn. unfold GoStrings.Itoa, readNumber.
  destruct n as [|p|p]; [| |lia].
  - exists (D0 Nil). split; reflexivity.
  - exists (Pos.to_uint p).
    pose proof (DecimalPos.Unsigned.to_uint_nonnil p) as Hnil.
    cbn [Z.to_int NilZero.string_of_int].
    assert (Hs : NilZero.string_of_uint (Pos.to_uint p) = NilEmpty.string_of_uint (Pos.to_uint p))
      by (destruct (Pos.to_uint p); [contradiction | reflexivity ..]).
    split; [exact Hs|].
    rewrite <- Hs, NilZero.usu by assumption.
    cbn [option_map]. f_equal.
    unfold Z.of_uint. rewrite DecimalPos.Unsigned.of_to. reflexivity.
Qed.

Lemma readDisplay_hours (sign : ascii) (sg h : Z) :
  (sign = "+"%char /\ sg = 1) \/ (sign = "-"%char /\ sg = -1) ->
  0 <= h ->
  readDisplay ("UTC" ++ String sign "" ++ GoStrings.Itoa h) = Some (sg * (h * 3600)).
Proof.
  intros Hsign Hh.
  destruct (Itoa_digits h Hh) as [d [-> Hread]].
  cbn [append readDisplay].
  rewrite Split_digits_alone, Hread. cbn [option_map].
  destruct Hsign as [[-> ->] | [-> ->]]; reflexivity.
Qed.

Lemma readDisplay_hours_minutes (sign : ascii) (sg h m : Z) :
  (sign = "+"%char /\ sg = 1) \/ (sign = "-"%char /\ sg = -1) ->
  0 <= h -> 0 <= m ->
  readDisplay ("UTC" ++ String sign "" ++ GoStrings.Itoa h ++ ":" ++ GoStrings.Itoa m)
    = Some (sg * (h * 3600 + m * 60)).
Proof.
  intros Hsign Hh Hm.
  destruct (Itoa_digits h Hh) as [dh [-> Hreadh]].
  destruct (Itoa_digits m Hm) as [dm [-> Hreadm]].
  cbn [append readDisplay].
  change (String ":" (NilEmpty.string_of_uint dm))
    with (":" ++ NilEmpty.string_of_uint dm)%string.
  rewrite Split_digits_colon_digits, Hreadh, Hreadm.
  destruct Hsign as [[-> ->] | [-> ->]]; reflexivity.
Qed.

(** The offset kept by the constructor is the zone offset of the time. *)
Lemma NewTimezoneFromTime_Offset (t : ZonedTime) :
  Offset (NewTimezoneFromTime t) = ZoneOffset t.
Proof.
  unfold NewTimezoneFromTime, Offset.
  destruct (ZoneOffset t <? 0); cbv beta iota zeta;
    repeat match goal with |- context [if ?b then _ else _] => destruct b end;
    reflexivity.
Qed.

Lemma hours_minutes_split (a : Z) :
  0 <= a -> a mod 60 = 0 ->
  0 <= Z.quot a 3600 /\
  0 <= Z.quot (Z.rem a 3600) 60 /\
  a = Z.quot a 3600 * 3600 + Z.quot (Z.rem a 3600) 60 * 60.
Proof.
  intros Ha Hmin.
  rewrite (Z.rem_mod_nonneg a 3600) by lia.
  rewrite (Z.quot_div_nonneg a 3600) by lia.
  rewrite (Z.quot_div_nonneg (a mod 3600) 60)
    by (try apply Z.mod_pos_bound; lia).
  Z.div_mod_to_equations. lia.
Qed.

(** The display string of an offset of magnitude [a]. *)
Lemma readDisplay_magnitude (sign : ascii) (sg a : Z) (l : Z) :
  (sign = "+"%char /\ sg = 1) \/ (sign = "-"%char /\ sg = -1) ->
  0 <= a -> a mod 60 = 0 -> a = 0 \/ 3600 <= a ->
  readDisplay
    (TimezoneString
       (if Z.quot a 3600 =? 0 then mkTimezone (FixedZone "UTC" a) l
        else if Z.quot (Z.rem a 3600) 60 =? 0 then
          mkTimezone
            (FixedZone ("UTC" ++ String sign "" ++ GoStrings.Itoa (Z.quot a 3600)) a) l
        else
          mkTimezone
            (FixedZone ("UTC" ++ String sign "" ++ GoStrings.Itoa (Z.quot a 3600) ++ ":"
                          ++ GoStrings.Itoa (Z.quot (Z.rem a 3600) 60)) a) l))
    = Some (sg * a).
Proof.
  intros Hsign Ha Hmin Hsize.
  destruct (hours_minutes_split a Ha Hmin) as (Hh & Hm & Hsum).
  assert (Hlt : Z.quot (Z.rem a 3600) 60 * 60 < 3600).
  { rewrite (Z.rem_mod_nonneg a 3600) by lia.
    rewrite (Z.quot_div_nonneg (a mod 3600) 60) by (try apply Z.mod_pos_bound; lia).
    Z.div_mod_to_equations. lia. }
  unfold TimezoneString.
  destruct (Z.eqb_spec (Z.quot a 3600) 0) as [Hz | Hnz].
  - cbn. f_equal. lia.
  - destruct (Z.eqb_spec (Z.quot (Z.rem a 3600) 60) 0) as [Hmz | Hmnz];
      cbn [loc GoZone.locName GoZone.FixedZone].
    + rewrite (readDisplay_hours sign sg) by assumption. f_equal. lia.
    + rewrite (readDisplay_hours_minutes sign sg) by assumption. f_equal. lia.
Qed.

Lemma NewTimezoneFromTime_display (t : ZonedTime) :
  ZoneOffset t mod 60 = 0 ->
  ZoneOffset t = 0 \/ 3600 <= Z.abs (ZoneOffset t) < 2 ^ 63 ->
  readDisplay (TimezoneString (NewTimezoneFromTime t)) = Some (ZoneOffset t).
Proof.
  intros Hmin Hsize. unfold NewTimezoneFromTime.
  set (o := ZoneOffset t) in *.
  destruct (Z.ltb_spec o 0) as [Hneg | Hpos]; cbv beta iota zeta.
  - rewrite wrap64_small by lia.
    rewrite (readDisplay_magnitude "-" (-1) (- o) o).
    + f_equal. lia.
    + right. split; reflexivity.
    + lia.
    + apply Z.mod_divide; [lia|]. apply Z.divide_opp_r.
      apply Z.mod_divide; [lia | assumption].
    + lia.
  - rewrite (readDisplay_magnitude "+" 1 o o).
    + f_equal. lia.
    + left. split; reflexivity.
    + lia.
    + assumption.
    + lia.
Qed.

Example NewTimezoneFromTime_one_hour_east :
  let tz := NewTimezoneFromTime (GoZone.In 0 (FixedZone "TestZone" 3600)) in
  TimezoneString tz = "UTC+1"%string /\ Offset tz = 3600 /\ OffsetHours tz = 1.
Proof. vm_compute. repeat split; reflexivity. Qed.

(** Half an hour east of UTC is displayed as plain UTC. *)
Example NewTimezoneFromTime_half_hour_east :
  let tz := NewTimezoneFromTime (GoZone.In 0 (FixedZone "TestZone" 1800)) in
  TimezoneString tz = "UTC"%string /\ Offset tz = 1800.
Proof. vm_compute. split; reflexivity. Qed.




(** * Further properties of the time engine *)

(** ** The comparison methods *)

Ltac duration_lia :=
  unfold GoTime.Hour, GoTime.Minute, GoTime.Second, GoTime.Nanosecond in *; lia.

Lemma IsArgBeforeStrict_gt (t other : Time) :
  IsArgBeforeStrict t other = (minuteOfDay other <? minuteOfDay t).
Proof.
  unfold IsArgBeforeStrict, minuteOfDay. clock_ranges. by_cases_Z; try reflexivity; lia.
Qed.

Ltac to_minuteOfDay :=
  unfold IsAfter, IsArgAfter, IsAfterStrict, IsArgAfterStrict;
  rewrite ?IsBefore_le, ?IsArgBefore_ge, ?IsBeforeStrict_lt, ?IsArgBeforeStrict_gt,
    ?EqualTime_minuteOfDay.

(** X1.  The eight comparison methods are one order seen from both sides:
    an inclusive comparison is the strict one or equality, "after" is
    "before" with the arguments exchanged, a strict comparison is the
    negation of the inclusive comparison the other way, and two times are
    equal exactly when each is before-or-equal to the other. *)
Theorem comparisons_agree (t other : Time) :
  IsBefore t other = IsBeforeStrict t other || EqualTime t other /\
  IsArgBefore t other = IsArgBeforeStrict t other || EqualTime t other /\
  IsAfter t other = IsBefore other t /\
  IsArgAfter t other = IsArgBefore other t /\
  IsAfterStrict t other = IsBeforeStrict other t /\
  IsArgAfterStrict t other = IsArgBeforeStrict other t /\
  IsBeforeStrict t other = negb (IsAfter t other) /\
  IsAfterStrict t other = negb (IsBefore t other) /\
  EqualTime t other = IsBefore t other && IsAfter t other.
Proof.
  to_minuteOfDay.
  pose proof (minuteOfDay_range t). pose proof (minuteOfDay_range other).
  repeat split; by_cases_Z; try reflexivity; lia.
Qed.

(** X2.  [IsBefore] is a total order of the times of day up to [EqualTime]:
    reflexive, total, antisymmetric, transitive; and of two times exactly
    one is strictly before the other, equal to it, or strictly after it. *)
Theorem IsBefore_total_order (a b c : Time) :
  IsBefore a a = true /\
  IsBefore a b || IsBefore b a = true /\
  IsBefore a b && IsBefore b a = EqualTime a b /\
  implb (IsBefore a b && IsBefore b c) (IsBefore a c) = true /\
  match IsBeforeStrict a b, EqualTime a b, IsAfterStrict a b with
  | true, false, false | false, true, false | false, false, true => True
  | _, _, _ => False
  end.
Proof.
  to_minuteOfDay.
  repeat split; by_cases_Z; try reflexivity; try exact I; lia.
Qed.

(** ** The linear and the circular range *)

Lemma Range_minuteOfDay (low high : Time) :
  Range low high = (minuteOfDay high - minuteOfDay low) * GoTime.Minute.
Proof. unfold Range, minuteOfDay. duration_lia. Qed.

(** X3.  [Range] is the signed difference of the minutes-of-day, so it
    changes sign when its arguments are exchanged; [RangeUp] is [Range]
    when low is before-or-equal to high, and [Range] plus 24 hours
    otherwise. *)
Theorem Range_linear (low high : Time) :
  Range low high = (minuteOfDay high - minuteOfDay low) * GoTime.Minute /\
  Range low high = - Range high low /\
  RangeUp low high =
    if IsBefore low high then Range low high
    else Range low high + 24 * GoTime.Hour.
Proof.
  rewrite RangeUp_circular, IsBefore_le, !Range_minuteOfDay.
  rewrite circular_diff by apply minuteOfDay_range.
  unfold GoTime.Hour, GoTime.Minute, GoTime.Second, GoTime.Nanosecond.
  repeat split; by_cases_Z; lia.
Qed.

(** ** Adding and subtracting, whatever the sign *)

Lemma reduceToDay_mod (minutes : Z) :
  (reduceToDay minutes) mod 1440 = minutes mod 1440.
Proof.
  rewrite reduceToDay_spec. unfold minutesInDay.
  destruct (Z.leb_spec minutes (60 * 24)); [reflexivity|].
  change (60 * 24) with 1440.
  rewrite Z.add_mod_idemp_l by lia. f_equal. lia.
Qed.

Lemma reduceToDay_small (minutes : Z) :
  minutes <= 1440 -> reduceToDay minutes = minutes.
Proof.
  intros Hm. rewrite reduceToDay_spec. unfold minutesInDay.
  destruct (Z.leb_spec minutes (60 * 24)); [reflexivity | lia].
Qed.

Lemma reduceToDay_bound (minutes : Z) : reduceToDay minutes <= 1440.
Proof.
  rewrite reduceToDay_spec. unfold minutesInDay.
  destruct (Z.leb_spec minutes (60 * 24)); [lia|].
  pose proof (Z.mod_pos_bound (minutes - 1) (60 * 24) ltac:(lia)). lia.
Qed.

Lemma AddTime_minuteOfDay_any (t : Time) (delta : Z) :
  minuteOfDay (AddTime t (delta * GoTime.Minute)) = (minuteOfDay t + delta) mod 1440.
Proof.
  unfold AddTime, MinutesTillDayEnd, minutesInDay.
  rewrite MinutesInt_whole, MinutesFromDayBegin_midnight.
  replace ((minuteOfDay t + delta) mod 1440)
    with ((minuteOfDay t + reduceToDay delta) mod 1440)
    by (rewrite <- (Z.add_mod_idemp_r _ (reduceToDay delta)) by lia;
        rewrite reduceToDay_mod; apply Z.add_mod_idemp_r; lia).
  destruct (Z.ltb_spec (reduceToDay delta) (60 * 24 - minuteOfDay t)).
  - apply minuteOfDay_addTime.
  - rewrite minuteOfDay_addTime, minuteOfDay_NewTime.
    rewrite Z.add_mod_idemp_l by lia.
    replace (0 * 60 + 0 + (reduceToDay delta - (60 * 24 - minuteOfDay t)))
      with (minuteOfDay t + reduceToDay delta + (-1) * 1440) by lia.
    apply Z.mod_add. lia.
Qed.

Lemma SubTime_minuteOfDay_any (t : Time) (delta : Z) :
  minuteOfDay (SubTime t (delta * GoTime.Minute)) = (minuteOfDay t - delta) mod 1440.
Proof.
  unfold SubTime, subTime.
  rewrite MinutesInt_whole, MinutesFromDayBegin_midnight.
  replace ((minuteOfDay t - delta) mod 1440)
    with ((minuteOfDay t - reduceToDay delta) mod 1440)
    by (rewrite <- (Zminus_mod_idemp_r _ (reduceToDay delta));
        rewrite reduceToDay_mod; apply Zminus_mod_idemp_r).
  destruct (Z.ltb_spec (reduceToDay delta) (minuteOfDay t)).
  - rewrite minuteOfDay_addTime. f_equal; lia.
  - rewrite minuteOfDay_addTime, minuteOfDay_NewTime.
    rewrite Z.add_mod_idemp_l by lia.
    replace (23 * 60 + 59 + -1 * (reduceToDay delta - minuteOfDay t - 1))
      with (minuteOfDay t - reduceToDay delta + 1 * 1440) by lia.
    apply Z.mod_add. lia.
Qed.

Lemma EqualTime_same_minuteOfDay (a b : Time) :
  minuteOfDay a = minuteOfDay b -> EqualTime a b = true.
Proof.
  intros Hab. rewrite EqualTime_minuteOfDay. apply Z.eqb_eq. assumption.
Qed.

(** X4.  The wrap of [AddTime] and [SubTime] holds for a duration of any
    whole number of minutes, negative ones included: the results have
    minute-of-day (m + delta) mod 1440 and (m - delta) mod 1440, so adding
    a negative duration is subtracting its opposite. *)
Theorem AddTime_SubTime_any_sign (t : Time) (delta : Z) :
  minuteOfDay (AddTime t (delta * GoTime.Minute)) = (minuteOfDay t + delta) mod 1440 /\
  minuteOfDay (SubTime t (delta * GoTime.Minute)) = (minuteOfDay t - delta) mod 1440 /\
  EqualTime (AddTime t (- delta * GoTime.Minute)) (SubTime t (delta * GoTime.Minute)) = true.
Proof.
  split; [apply AddTime_minuteOfDay_any|].
  split; [apply SubTime_minuteOfDay_any|].
  apply EqualTime_same_minuteOfDay.
  rewrite AddTime_minuteOfDay_any, SubTime_minuteOfDay_any. f_equal; lia.
Qed.

(** X5.  [SubTime] undoes [AddTime] and [AddTime] undoes [SubTime], for
    every duration of whole minutes, and adding whole days changes
    nothing: the results are [EqualTime] to the time one started from. *)
Theorem AddTime_SubTime_inverse (t : Time) (delta days : Z) :
  EqualTime (SubTime (AddTime t (delta * GoTime.Minute)) (delta * GoTime.Minute)) t = true /\
  EqualTime (AddTime (SubTime t (delta * GoTime.Minute)) (delta * GoTime.Minute)) t = true /\
  EqualTime (AddTime t (days * 1440 * GoTime.Minute)) t = true /\
  EqualTime (SubTime t (days * 1440 * GoTime.Minute)) t = true.
Proof.
  pose proof (minuteOfDay_range t) as Ht.
  repeat split; apply EqualTime_same_minuteOfDay;
    repeat (rewrite SubTime_minuteOfDay_any || rewrite AddTime_minuteOfDay_any);
    Z.div_mod_to_equations; lia.
Qed.

(** X6.  The circular range is the duration that leads from low to high:
    adding [RangeUp low high] (or [SmartDiff low high]) to low gives the
    time of high, and subtracting it from high gives the time of low. *)
Theorem AddTime_RangeUp (low high : Time) :
  EqualTime (AddTime low (RangeUp low high)) high = true /\
  EqualTime (AddTime low (SmartDiff low high)) high = true /\
  EqualTime (SubTime high (RangeUp low high)) low = true.
Proof.
  pose proof (minuteOfDay_range low) as Hl. pose proof (minuteOfDay_range high) as Hh.
  rewrite SmartDiff_circular, RangeUp_circular.
  repeat split; apply EqualTime_same_minuteOfDay;
    repeat (rewrite SubTime_minuteOfDay_any || rewrite AddTime_minuteOfDay_any);
    Z.div_mod_to_equations; lia.
Qed.

(** ** The instant behind the result *)

Lemma minuteOfDay_NewTime_small (h m : Z) :
  0 <= h < 24 -> 0 <= m < 60 -> minuteOfDay (NewTime h m) = h * 60 + m.
Proof.
  intros Hh Hm. rewrite minuteOfDay_NewTime. apply Z.mod_small. lia.
Qed.

Lemma instant_NewTime (h m : Z) :
  instant (NewTime h m) = (h * 60 + m) * GoTime.Minute.
Proof. unfold NewTime, GoTime.Date000. cbn [instant]. duration_lia. Qed.

(** X7.  The embedded [time.Time] of a result.  From a time built by
    [NewTime] and a non-negative duration of whole minutes, [AddTime] stays
    on the day of [NewTime]: its instant is that of the wrapped
    minute-of-day.  [SubTime], for a duration of at most one day, does so
    too with one exception: subtracting exactly the time elapsed since
    midnight lands on 24:00, the midnight of the next day, which shows as
    00:00 but is another instant than [NewTime(0, 0)]. *)
Theorem AddTime_SubTime_instant (h m delta : Z) :
  0 <= h < 24 -> 0 <= m < 60 -> 0 <= delta ->
  instant (AddTime (NewTime h m) (delta * GoTime.Minute))
    = ((h * 60 + m + delta) mod 1440) * GoTime.Minute /\
  (delta <= 1440 ->
   instant (SubTime (NewTime h m) (delta * GoTime.Minute))
     = if delta =? h * 60 + m then 24 * GoTime.Hour
       else ((h * 60 + m - delta) mod 1440) * GoTime.Minute).
Proof.
  intros Hh Hm Hd. split.
  - unfold AddTime, MinutesTillDayEnd, minutesInDay.
    rewrite MinutesInt_whole, MinutesFromDayBegin_midnight,
      minuteOfDay_NewTime_small by assumption.
    pose proof (reduceToDay_mod delta) as Hmod.
    pose proof (reduceToDay_bound delta) as Hup.
    assert (Hlow : 0 <= reduceToDay delta).
    { rewrite reduceToDay_spec. unfold minutesInDay.
      destruct (Z.leb_spec delta (60 * 24)); [lia|].
      pose proof (Z.mod_pos_bound (delta - 1) (60 * 24) ltac:(lia)). lia. }
    revert Hmod Hup Hlow. generalize (reduceToDay delta). intros r Hmod Hup Hlow.
    unfold addTime, GoTime.Add.
    destruct (Z.ltb_spec r (60 * 24 - (h * 60 + m))); cbn [instant];
      rewrite instant_NewTime.
    + assert (E : (h * 60 + m + delta) mod 1440 = h * 60 + m + r)
        by (Z.div_mod_to_equations; lia).
      rewrite E. duration_lia.
    + assert (E : (h * 60 + m + delta) mod 1440 = h * 60 + m + r - 1440)
        by (Z.div_mod_to_equations; lia).
      rewrite E. duration_lia.
  - intros Hday. unfold SubTime, subTime.
    rewrite MinutesInt_whole, MinutesFromDayBegin_midnight,
      minuteOfDay_NewTime_small, reduceToDay_small by assumption.
    unfold addTime, GoTime.Add.
    destruct (Z.ltb_spec delta (h * 60 + m)); cbn [instant]; rewrite instant_NewTime;
      destruct (Z.eqb_spec delta (h * 60 + m)); try lia.
    + assert (E : (h * 60 + m - delta) mod 1440 = h * 60 + m - delta)
        by (Z.div_mod_to_equations; lia).
      rewrite E. duration_lia.
    + subst delta. duration_lia.
    + assert (E : (h * 60 + m - delta) mod 1440 = h * 60 + m - delta + 1440)
        by (Z.div_mod_to_equations; lia).
      rewrite E. duration_lia.
Qed.

(** Ten and a half hours before 10:30, and a full day after it. *)
Lemma AddTime_SubTime_instant_1030 :
  (0 <= 10 < 24) /\ (0 <= 30 < 60) /\ (0 <= 630 <= 1440) /\
  instant (SubTime (NewTime 10 30) (630 * GoTime.Minute)) = 24 * GoTime.Hour /\
  instant (SubTime (NewTime 10 30) (630 * GoTime.Minute)) <> instant (NewTime 0 0).
Proof.
  split; [lia|]. split; [lia|]. split; [lia|].
  split.
  - exact (proj2 (AddTime_SubTime_instant 10 30 630 ltac:(lia) ltac:(lia) ltac:(lia))
             ltac:(lia)).
  - vm_compute. discriminate.
Defined.

(** ** Emptiness *)

(** X8.  A time is zero exactly when its instant is the zero instant and it
    was never set.  [EmptyTime] is zero; nothing that a constructor or an
    operation returns is, midnight included. *)
Theorem IsZero_only_EmptyTime (t : Time) (h m : Z) (i : GoTime.Instant)
        (d : GoTime.Duration) (s : string) :
  (IsZero t = true <-> instant t = GoTime.zeroInstant /\ isSet t = false) /\
  IsZero EmptyTime = true /\
  IsZero (NewTime h m) = false /\
  IsZero (NewFromTime i) = false /\
  IsZero (AddTime t d) = false /\
  IsZero (SubTime t d) = false /\
  IsZero (RoundDownToFives t) = false /\
  IsZero (RoundUpToFives t) = false /\
  match ParseTime s with Ok r => IsZero r = false | _ => True end.
Proof.
  assert (Hset : forall x, isSet x = true -> IsZero x = false).
  { intros x Hx. unfold IsZero. rewrite Hx. destruct (instant x =? _); reflexivity. }
  split.
  { unfold IsZero. destruct (Z.eqb_spec (instant t) GoTime.zeroInstant);
      destruct (isSet t); cbn [negb]; split; intros Hz;
      try discriminate; try (split; congruence); destruct Hz; congruence. }
  split; [reflexivity|].
  repeat split; try (apply Hset; reflexivity).
  - apply Hset. unfold AddTime. destruct (_ <? _); reflexivity.
  - apply Hset. unfold SubTime. destruct (_ <? _); reflexivity.
  - unfold ParseTime. destruct (String.eqb s EmptyString); [exact I|].
    induction timeSeparators as [|sep seps IH]; cbn [parseTimeLoop]; [exact I|].
    unfold timeAttempt. destruct (timeTokens s sep) as [[a b]|]; cbn [option_map]; [|exact IH].
    unfold timeOfTokens.
    destruct (GoStrings.Atoi (prepareNumber a false)); [|exact I].
    destruct ((_ <? 0) || (_ >? 23)); [exact I|].
    destruct (GoStrings.Atoi (prepareNumber b false)); [|exact I].
    destruct ((_ <? 0) || (_ >? 59)); [exact I|].
    apply Hset. reflexivity.
Qed.

(** ** Rounding *)

(** The arithmetic of the grid: rounding a minute, and rounding the
    result once more. *)
Lemma round_five (m : Z) :
  0 <= m < 60 ->
  let v := m / 10 * 10 + (if m mod 10 <=? 5 then 0 else 5) in
  v mod 5 = 0 /\ (0 <= m - v <= 5) /\ (0 <= v < 60) /\
  v / 10 * 10 + (if v mod 10 <=? 5 then 0 else 5) = m / 10 * 10.
Proof.
  intros Hm. cbv zeta.
  destruct (Z.leb_spec (m mod 10) 5).
  - rewrite Z.add_0_r.
    destruct (Z.leb_spec ((m / 10 * 10) mod 10) 5);
      repeat split; Z.div_mod_to_equations; lia.
  - destruct (Z.leb_spec ((m / 10 * 10 + 5) mod 10) 5);
      repeat split; Z.div_mod_to_equations; lia.
Qed.

Lemma RoundDownToFives_NewTime (t : Time) :
  RoundDownToFives t
    = NewTime (Hour t) (Minute t / 10 * 10 + (if Minute t mod 10 <=? 5 then 0 else 5)).
Proof.
  unfold RoundDownToFives. rewrite roundLoop_minute by apply Minute_range. reflexivity.
Qed.

(** X9.  [RoundDownToFives] gives a minute that is a multiple of five, not
    after the minute it is given and at most five minutes before it.  It is
    not idempotent: a second application goes down to the multiple of ten
    (08 gives 05, then 00), and from there on nothing changes. *)
Theorem RoundDownToFives_grid (t : Time) :
  let once := RoundDownToFives t in
  let twice := RoundDownToFives once in
  (Minute once) mod 5 = 0 /\
  (0 <= Minute t - Minute once <= 5) /\
  Hour twice = Hour t /\
  Minute twice = Minute t / 10 * 10 /\
  RoundDownToFives twice = twice.
Proof.
  cbv zeta.
  pose proof (Hour_range t) as Hh. pose proof (Minute_range t) as Hm.
  destruct (round_five (Minute t) Hm) as (Hfive & Hnear & Hv & Hagain).
  assert (Hten : 0 <= Minute t / 10 * 10 < 60) by (Z.div_mod_to_equations; lia).
  assert (Hfix : (Minute t / 10 * 10) / 10 * 10
                 + (if (Minute t / 10 * 10) mod 10 <=? 5 then 0 else 5)
                 = Minute t / 10 * 10).
  { destruct (Z.leb_spec ((Minute t / 10 * 10) mod 10) 5); Z.div_mod_to_equations; lia. }
  assert (H1 : Minute (RoundDownToFives t)
               = Minute t / 10 * 10 + (if Minute t mod 10 <=? 5 then 0 else 5))
    by (rewrite RoundDownToFives_NewTime; apply Minute_NewTime; assumption).
  assert (Hh1 : Hour (RoundDownToFives t) = Hour t)
    by (rewrite RoundDownToFives_NewTime; apply Hour_NewTime; assumption).
  assert (H2 : RoundDownToFives (RoundDownToFives t)
               = NewTime (Hour t) (Minute t / 10 * 10)).
  { rewrite (RoundDownToFives_NewTime (RoundDownToFives t)), Hh1, H1, Hagain.
    reflexivity. }
  rewrite H1, H2.
  split; [exact Hfive|]. split; [exact Hnear|].
  split; [apply Hour_NewTime; assumption|].
  split; [apply Minute_NewTime; assumption|].
  rewrite RoundDownToFives_NewTime.
  rewrite Hour_NewTime, Minute_NewTime by assumption.
  rewrite Hfix. reflexivity.
Qed.

Example RoundDownToFives_twice_08 :
  Minute (RoundDownToFives (NewTime 10 8)) = 5 /\
  Minute (RoundDownToFives (RoundDownToFives (NewTime 10 8))) = 0.
Proof. split; reflexivity. Qed.

(** X10.  [RoundUpToFives] gives a minute that is a multiple of five, from
    zero to five minutes after the time it is given (around the clock); it
    leaves a time alone exactly when its minute ends in 5, so a minute that
    is a multiple of ten moves up by five. *)
Theorem RoundUpToFives_grid (t : Time) :
  (Minute (RoundUpToFives t)) mod 5 = 0 /\
  (0 <= (minuteOfDay (RoundUpToFives t) - minuteOfDay t) mod 1440 <= 5) /\
  EqualTime (RoundUpToFives t) t = (Minute t mod 10 =? 5).
Proof.
  pose proof (Hour_range t) as Hh. pose proof (Minute_range t) as Hm.
  destruct (round_five (Minute t) Hm) as (Hfive & Hnear & Hv & _).
  assert (Hup : minuteOfDay (RoundUpToFives t)
                = (Hour t * 60
                   + (Minute t / 10 * 10 + (if Minute t mod 10 <=? 5 then 0 else 5))
                   + 5) mod 1440).
  { unfold RoundUpToFives. rewrite minuteOfDay_NewFromTime.
    change (mkTime (GoTime.Add (instant (RoundDownToFives t)) (5 * GoTime.Minute)) true)
      with (addTime (RoundDownToFives t) GoTime.Minute 5).
    rewrite minuteOfDay_addTime, RoundDownToFives_NewTime.
    rewrite minuteOfDay_NewTime_small by assumption. reflexivity. }
  assert (Hminute : Minute (RoundUpToFives t) = minuteOfDay (RoundUpToFives t) mod 60).
  { unfold minuteOfDay. pose proof (Minute_range (RoundUpToFives t)).
    rewrite Z.add_comm, Z.mod_add by lia. symmetry. apply Z.mod_small. assumption. }
  rewrite EqualTime_minuteOfDay, Hminute, Hup. unfold minuteOfDay.
  clear Hup Hminute.
  destruct (Z.leb_spec (Minute t mod 10) 5); (split; [|split]).
  all: try match goal with
           | |- _ = (_ =? _) =>
               match goal with
               | |- context [?x =? ?y] => destruct (Z.eqb_spec x y)
               end;
               match goal with
               | |- context [?x =? ?y] => destruct (Z.eqb_spec x y)
               end;
               try reflexivity; exfalso
           end.
  all: Z.div_mod_to_equations; lia.
Qed.

(** ** The order behind the sorting priority *)

Lemma shifted_mod (x origin : Z) :
  0 <= x < 1440 -> 0 <= origin <= 1440 ->
  (x - origin) mod 1440 = if x <? origin then x - origin + 1440 else x - origin.
Proof.
  intros Hx Ho. destruct (Z.ltb_spec x origin).
  - symmetry. apply Z.mod_unique_pos with (q := -1); lia.
  - apply Z.mod_small. lia.
Qed.

(** X11.  Sorting by priority first and by time second lists the times in
    the order of the clock, starting at the day start when now is after the
    day start, and just after the day start when now is not after it (the
    day start itself then comes last).  So for one position of now, LongAgo
    and NotSoon never occur together. *)
Theorem SortingPriority_clock_order (a b now dayStart : Time) :
  let rank t := priorityTag (GetTimeSortingPriority t now dayStart) in
  let origin :=
    if minuteOfDay now <=? minuteOfDay dayStart
    then minuteOfDay dayStart + 1 else minuteOfDay dayStart in
  (rank a < rank b \/ (rank a = rank b /\ minuteOfDay a <= minuteOfDay b))
  <-> (minuteOfDay a - origin) mod 1440 <= (minuteOfDay b - origin) mod 1440.
Proof.
  cbv zeta.
  pose proof (minuteOfDay_range a). pose proof (minuteOfDay_range b).
  pose proof (minuteOfDay_range now). pose proof (minuteOfDay_range dayStart).
  unfold GetTimeSortingPriority, IsAfter.
  rewrite !IsBefore_le, !IsArgBefore_ge.
  destruct (Z.leb_spec (minuteOfDay now) (minuteOfDay dayStart)).
  - rewrite !shifted_mod by lia.
    by_cases_Z; cbn [priorityTag]; lia.
  - rewrite !shifted_mod by lia.
    by_cases_Z; cbn [priorityTag]; lia.
Qed.

Example SortingPriority_evening :
  map (fun t => GetTimeSortingPriority t (NewTime 18 0) (NewTime 4 0))
      [NewTime 4 0; NewTime 14 0; NewTime 18 30; NewTime 2 0]
    = [BeforePriority; BeforePriority; AfterPriority; NotSoonPriority].
Proof. reflexivity. Qed.

(** ** Minutes from the day begin *)

(** X12.  Only the hour of the day start counts for [MinutesFromDayBegin]:
    two day starts in the same hour give the same result.  When the hour of
    the time is not before the hour of the day start, the result is the
    minute-of-day minus sixty times that hour and lies in [0, 1439], and
    [MinutesTillDayEnd] lies in [1, 1440]: at the day start itself a full
    day remains. *)
Theorem MinutesFromDayBegin_hour_only (t s s' : Time) :
  (Hour s = Hour s' -> MinutesFromDayBegin t s = MinutesFromDayBegin t s') /\
  (Hour s <= Hour t ->
   MinutesFromDayBegin t s = minuteOfDay t - 60 * Hour s /\
   (0 <= MinutesFromDayBegin t s <= 1439) /\
   (1 <= MinutesTillDayEnd t s <= 1440)).
Proof.
  unfold MinutesTillDayEnd, MinutesFromDayBegin, minutesInDay, minuteOfDay.
  pose proof (Hour_range t). pose proof (Minute_range t). pose proof (Hour_range s).
  split.
  - intros ->. reflexivity.
  - intros Hle. destruct (Z.ltb_spec (Hour t) (Hour s)); lia.
Qed.

(** A day starting at 04:30 counts as one starting at 04:00. *)
Lemma MinutesFromDayBegin_hour_only_0430 :
  Hour (NewTime 4 30) = Hour (NewTime 4 0) /\
  Hour (NewTime 4 30) <= Hour (NewTime 10 15) /\
  MinutesFromDayBegin (NewTime 10 15) (NewTime 4 30)
    = MinutesFromDayBegin (NewTime 10 15) (NewTime 4 0) /\
  MinutesFromDayBegin (NewTime 10 15) (NewTime 4 30) = 375.
Proof.
  split; [reflexivity|]. split; [vm_compute; discriminate|].
  split.
  - exact (proj1 (MinutesFromDayBegin_hour_only (NewTime 10 15) (NewTime 4 30) (NewTime 4 0))
             eq_refl).
  - exact (proj1 (proj2 (MinutesFromDayBegin_hour_only (NewTime 10 15) (NewTime 4 30)
                           (NewTime 4 0))
                    ltac:(vm_compute; discriminate))).
Defined.

(** * Further properties of the time parser *)

(** ** The digits of a token *)

Lemma digitsValue_nonneg (s : string) (acc v : Z) :
  0 <= acc -> GoStrings.digitsValue s acc = Some v -> 0 <= v.
Proof.
  revert acc. induction s as [|c s IH]; intros acc Hacc; cbn [GoStrings.digitsValue].
  - intros [= <-]. assumption.
  - destruct (GoStrings.isDigit c) eqn:Hc; [|discriminate].
    apply IH. unfold GoStrings.isDigit in Hc.
    apply andb_prop in Hc as [Hlow _]. apply N.leb_le in Hlow. lia.
Qed.

(** A token that starts with a digit is read without a sign. *)
Lemma Atoi_digit_first (c : ascii) (s : string) (v : Z) :
  GoStrings.isDigit c = true ->
  GoStrings.Atoi (String c s) = Some v -> 0 <= v.
Proof.
  intros Hc. unfold GoStrings.Atoi.
  destruct c as [[] [] [] [] [] [] [] []]; try discriminate Hc.
  all: cbv beta iota zeta.
  all: destruct (GoStrings.digitsValue _ 0) as [n|] eqn:Hn; try discriminate.
  all: destruct (_ && _); try discriminate.
  all: intros [= <-]; eapply digitsValue_nonneg; [|exact Hn]; lia.
Qed.

Lemma prepareNumber_allDigits (s : string) :
  allDigits (prepareNumber s false) = true.
Proof.
  induction s as [|c s IH]; cbn [prepareNumber andb]; [reflexivity|].
  destruct (GoStrings.isDigit c) eqn:Hc; [|reflexivity].
  cbn [allDigits]. rewrite Hc, IH. reflexivity.
Qed.

Lemma Atoi_prepareNumber_nonneg (s : string) (v : Z) :
  GoStrings.Atoi (prepareNumber s false) = Some v -> 0 <= v.
Proof.
  pose proof (prepareNumber_allDigits s) as Hall.
  destruct (prepareNumber s false) as [|c p]; [discriminate|].
  cbn [allDigits] in Hall. apply andb_prop in Hall as [Hc _].
  apply Atoi_digit_first. assumption.
Qed.

(** X13.  [prepareNumber] cuts a string down to its leading run of digits:
    the result holds digits only, the string is the result followed by a
    rest that is empty or starts with another byte than a digit, a second
    application changes nothing, and a string of digits comes back as it
    is.  What [Atoi] reads from the result is never negative, so the test
    "hour < 0" of [ParseTime] never fires. *)
Theorem prepareNumber_leading_digits (s : string) :
  allDigits (prepareNumber s false) = true /\
  (exists rest,
      s = (prepareNumber s false ++ rest)%string /\
      match rest with
      | EmptyString => True
      | String c _ => GoStrings.isDigit c = false
      end) /\
  prepareNumber (prepareNumber s false) false = prepareNumber s false /\
  (allDigits s = true <-> prepareNumber s false = s) /\
  match GoStrings.Atoi (prepareNumber s false) with
  | Some v => 0 <= v
  | None => True
  end.
Proof.
  split; [apply prepareNumber_allDigits|].
  split.
  { induction s as [|c s [rest [Hs Hrest]]]; cbn [prepareNumber andb].
    - exists EmptyString. split; [reflexivity | exact I].
    - destruct (GoStrings.isDigit c) eqn:Hc.
      + exists rest. cbn [append]. split; [f_equal; exact Hs | exact Hrest].
      + exists (String c s). split; [reflexivity | exact Hc]. }
  split.
  { induction s as [|c s IH]; cbn [prepareNumber andb]; [reflexivity|].
    destruct (GoStrings.isDigit c) eqn:Hc; [|reflexivity].
    cbn [prepareNumber andb]. rewrite Hc, IH. reflexivity. }
  split.
  { induction s as [|c s IH]; cbn [prepareNumber allDigits andb].
    - split; reflexivity.
    - destruct (GoStrings.isDigit c) eqn:Hc; cbn [andb].
      + split.
        * intros Hs. f_equal. apply IH. assumption.
        * intros [= Hs]. apply IH. assumption.
      + split; discriminate. }
  destruct (GoStrings.Atoi (prepareNumber s false)) as [v|] eqn:Hv; [|exact I].
  apply (Atoi_prepareNumber_nonneg s). assumption.
Qed.

(** ** What a successful parse returns *)

Lemma timeOfTokens_Ok (tokens : string * string) (t : Time) :
  timeOfTokens tokens = Ok t ->
  exists h m, (0 <= h <= 23) /\ (0 <= m <= 59) /\ t = NewTime h m.
Proof.
  destruct tokens as [a b]. unfold timeOfTokens.
  destruct (GoStrings.Atoi (prepareNumber a false)) as [h|]; [|discriminate].
  destruct (Z.ltb_spec h 0); [discriminate|].
  rewrite Z.gtb_ltb. destruct (Z.ltb_spec 23 h); [discriminate|]. cbn [orb].
  destruct (GoStrings.Atoi (prepareNumber b false)) as [m|]; [|discriminate].
  destruct (Z.ltb_spec m 0); [discriminate|].
  rewrite Z.gtb_ltb. destruct (Z.ltb_spec 59 m); [discriminate|]. cbn [orb].
  intros [= <-]. exists h, m. repeat split; lia.
Qed.

Lemma parseTimeLoop_Ok (s : string) (seps : list ascii) (t : Time) :
  parseTimeLoop s seps = Ok t ->
  exists sep tokens, In sep seps /\ timeTokens s sep = Some tokens
                     /\ timeOfTokens tokens = Ok t.
Proof.
  induction seps as [|sep seps IH]; cbn [parseTimeLoop]; [discriminate|].
  unfold timeAttempt.
  destruct (timeTokens s sep) as [tokens|] eqn:Htok; cbn [option_map].
  - intros Hok. exists sep, tokens. repeat split; [left; reflexivity | assumption ..].
  - intros Hok. destruct (IH Hok) as (sep' & tokens & Hin & Htok' & Hok').
    exists sep', tokens. repeat split; [right; assumption | assumption ..].
Qed.

(** X14.  A time that [ParseTime] returns is [NewTime(h, m)] for an hour h
    in [0,23] and a minute m in [0,59]: these are its hour and its minute,
    it is set, and its instant lies on the day of [NewTime]. *)
Theorem ParseTime_in_range (s : string) (t : Time) :
  ParseTime s = Ok t ->
  exists h m,
    (0 <= h <= 23) /\ (0 <= m <= 59) /\ t = NewTime h m /\
    Hour t = h /\ Minute t = m /\ isSet t = true /\
    instant t = (h * 60 + m) * GoTime.Minute.
Proof.
  unfold ParseTime. destruct (String.eqb s EmptyString); [discriminate|].
  intros Hok. destruct (parseTimeLoop_Ok _ _ _ Hok) as (sep & tokens & _ & _ & Htok).
  destruct (timeOfTokens_Ok _ _ Htok) as (h & m & Hh & Hm & ->).
  exists h, m. repeat split; try lia.
  - apply Hour_NewTime; lia.
  - apply Minute_NewTime; lia.
  - apply instant_NewTime.
Qed.

Lemma ParseTime_in_range_0905 :
  ParseTime "9:05" = Ok (NewTime 9 5) /\
  exists h m,
    (0 <= h <= 23) /\ (0 <= m <= 59) /\ NewTime 9 5 = NewTime h m /\
    Hour (NewTime 9 5) = h /\ Minute (NewTime 9 5) = m /\ isSet (NewTime 9 5) = true /\
    instant (NewTime 9 5) = (h * 60 + m) * GoTime.Minute.
Proof.
  split; [reflexivity|].
  exact (ParseTime_in_range "9:05" (NewTime 9 5) eq_refl).
Defined.

(** ** Reading back what [String] prints *)

Lemma In_upto (n : nat) (z : Z) : 0 <= z < Z.of_nat n -> In z (upto n).
Proof.
  intros Hz. unfold upto. apply in_map_iff. exists (Z.to_nat z).
  split; [lia|]. apply in_seq. lia.
Qed.

Lemma isTime_Ok (r : outcome Time TimeError) (h m : Z) :
  isTime r h m = true -> r = Ok (NewTime h m).
Proof.
  destruct r as [[i set]| |]; cbn [isTime instant isSet]; try discriminate.
  intros Hb. apply andb_prop in Hb as [Hi Hset].
  apply Z.eqb_eq in Hi. cbn [instant NewTime] in Hi. subst. reflexivity.
Qed.

(** Every hour, minute and separator, tried. *)
Lemma padded_forms_parse :
  forallb (fun h =>
    forallb (fun m =>
      isTime (ParseTime (pad2 h ++ pad2 m)) h m
      && forallb (fun sep => isTime (ParseTime (pad2 h ++ String sep (pad2 m))) h m)
           timeSeparators)
      (upto 60))
    (upto 24) = true.
Proof. vm_compute. reflexivity. Qed.

Lemma padded_form_parses (h m : Z) (sep : ascii) :
  0 <= h < 24 -> 0 <= m < 60 ->
  ParseTime (pad2 h ++ pad2 m) = Ok (NewTime h m) /\
  (In sep timeSeparators ->
   ParseTime (pad2 h ++ String sep (pad2 m)) = Ok (NewTime h m)).
Proof.
  intros Hh Hm.
  pose proof padded_forms_parse as Hall.
  rewrite forallb_forall in Hall. specialize (Hall h (In_upto 24 h Hh)).
  rewrite forallb_forall in Hall. specialize (Hall m (In_upto 60 m Hm)).
  apply andb_prop in Hall as [Hbare Hseps].
  split; [apply isTime_Ok; assumption|].
  intros Hin. rewrite forallb_forall in Hseps. apply isTime_Ok, Hseps, Hin.
Qed.

Lemma ParseTime_TimeString (t : Time) :
  ParseTime (TimeString t) = Ok (NewTime (Hour t) (Minute t)).
Proof.
  unfold TimeString.
  apply (padded_form_parses (Hour t) (Minute t) ":"%char (Hour_range t) (Minute_range t)).
  right. left. reflexivity.
Qed.

(** X15.  [ParseTime] reads back what [String] prints: for every time t,
    parsing its HH:MM form gives [NewTime] of its hour and minute, a time
    [EqualTime] to t; so does the form with any other separator of the
    list, and the bare form HHMM. *)
Theorem ParseTime_String_round_trip (t : Time) (sep : ascii) :
  let r := NewTime (Hour t) (Minute t) in
  ParseTime (TimeString t) = Ok r /\
  ParseTime (pad2 (Hour t) ++ pad2 (Minute t)) = Ok r /\
  (In sep timeSeparators ->
   ParseTime (pad2 (Hour t) ++ String sep (pad2 (Minute t))) = Ok r) /\
  EqualTime r t = true.
Proof.
  cbv zeta.
  destruct (padded_form_parses (Hour t) (Minute t) sep (Hour_range t) (Minute_range t))
    as [Hbare Hsep].
  split; [apply ParseTime_TimeString|].
  split; [exact Hbare|]. split; [exact Hsep|].
  unfold EqualTime.
  rewrite Hour_NewTime, Minute_NewTime by (apply Hour_range || apply Minute_range).
  rewrite !Z.eqb_refl. reflexivity.
Qed.

(** ** The forms without padding *)

(** Every hour, minute and separator, tried without the zero in front. *)
Lemma unpadded_forms_parse :
  forallb (fun sep =>
    forallb (fun h =>
      forallb (fun m =>
        let r := ParseTime (GoStrings.Itoa h ++ String sep (GoStrings.Itoa m)) in
        if (10 <=? h) && (m <? 10) && negb (Ascii.eqb sep " ")
        then isMinuteFailure r
        else isTime r h m)
        (upto 60))
      (upto 24))
    timeSeparators = true.
Proof. vm_compute. reflexivity. Qed.

(** X16.  Without the padding zeros, H:MM, H:M and HH:MM are read as padded
    ones are, with every separator of the list.  HH:M is not: a two-digit
    hour, a separator other than the space and a one-digit minute make a
    string of four bytes, which the first turn of the loop cuts 2+2 before
    the separator is tried, and the parse ends on the minute token that
    starts with the separator ("10:5" is refused, "10 5" is 10:05). *)
Theorem ParseTime_unpadded (h m : Z) (sep : ascii) :
  0 <= h < 24 -> 0 <= m < 60 -> In sep timeSeparators ->
  ParseTime (GoStrings.Itoa h ++ String sep (GoStrings.Itoa m))
    = if (10 <=? h) && (m <? 10) && negb (Ascii.eqb sep " ")
      then Err (ParseMinuteFailed "")
      else Ok (NewTime h m).
Proof.
  intros Hh Hm Hsep.
  pose proof unpadded_forms_parse as Hall.
  rewrite forallb_forall in Hall. specialize (Hall sep Hsep).
  rewrite forallb_forall in Hall. specialize (Hall h (In_upto 24 h Hh)).
  rewrite forallb_forall in Hall. specialize (Hall m (In_upto 60 m Hm)).
  cbv zeta in Hall.
  destruct ((10 <=? h) && (m <? 10) && negb (Ascii.eqb sep " ")).
  - destruct (ParseTime _) as [t|[]|]; cbn [isMinuteFailure] in Hall; try discriminate.
    apply String.eqb_eq in Hall. subst. reflexivity.
  - apply isTime_Ok. assumption.
Qed.

Lemma ParseTime_unpadded_10_5 :
  (0 <= 10 < 24) /\ (0 <= 5 < 60) /\
  ParseTime "10:5" = Err (ParseMinuteFailed "") /\
  ParseTime "10 5" = Ok (NewTime 10 5).
Proof.
  split; [lia|]. split; [lia|]. split.
  - exact (ParseTime_unpadded 10 5 ":"%char ltac:(lia) ltac:(lia)
             (or_intror (or_introl eq_refl))).
  - exact (ParseTime_unpadded 10 5 " "%char ltac:(lia) ltac:(lia) (or_introl eq_refl)).
Defined.

(** * Further properties of the timezone file *)

(** ** When the offset parser panics *)

Lemma offsetSplitLoop_returns (input : string) (seps : list ascii) (hours minutes : string) :
  offsetSplitLoop input seps hours minutes <> Panic.
Proof.
  revert hours minutes.
  induction seps as [|sep seps IH]; intros hours minutes; cbn [offsetSplitLoop].
  - discriminate.
  - pose proof (Split_nonempty input sep) as Hne.
    destruct (GoStrings.Split input sep) as [|a [|b [|c rest]]];
      [contradiction | apply IH | discriminate | discriminate].
Qed.

(** X17.  [ParseUTCOffset] panics, on the index [input[0]], exactly when
    the input is not empty and nothing is left of it once the first "UTC"
    and the surrounding white space are removed ("UTC", " ", " UTC ");
    every other input gets a location or an error. *)
Theorem ParseUTCOffset_panics_exactly (input : string) :
  ParseUTCOffset input = Panic <->
  input <> EmptyString /\
  GoStrings.TrimSpace (GoStrings.ReplaceFirst input "UTC" "") = EmptyString.
Proof.
  unfold ParseUTCOffset.
  destruct input as [|c s].
  - cbn. split; [discriminate | intros [Hne _]; contradiction].
  - replace (GoStrings.len (String c s) =? 0) with false
      by (symmetry; apply Z.eqb_neq; unfold GoStrings.len; cbn [String.length]; lia).
    destruct (GoStrings.TrimSpace (GoStrings.ReplaceFirst (String c s) "UTC" ""))
      as [|c0 rest] eqn:Htrim.
    + split; [intros _; split; [discriminate | reflexivity] | reflexivity].
    + split; [|intros [_ Habs]; discriminate Habs].
      intros Hpanic. exfalso. revert Hpanic.
      destruct ((isPlus c0 || isMinus c0) && (GoStrings.len (String c0 rest) =? 1));
        [discriminate|].
      match goal with
      | |- context [offsetSplitLoop ?i ?l ?h ?m] =>
          pose proof (offsetSplitLoop_returns i l h m) as Hloop;
          destruct (offsetSplitLoop i l h m) as [[hours minutes]|e|]
      end; [|discriminate|contradiction].
      destruct (GoStrings.Atoi hours); [|discriminate].
      destruct (_ >? _); [discriminate|].
      destruct (GoStrings.Atoi minutes); [|discriminate].
      destruct (checkMinutes _ _ _); discriminate.
Qed.

(** ** What the offset parser accepts *)

Lemma isEqual_In (n : Z) (ns : list Z) : isEqual n ns = true -> In n ns.
Proof.
  induction ns as [|target ns IH]; cbn [isEqual]; [discriminate|].
  destruct (Z.eqb_spec n target); [left; congruence | right; auto].
Qed.

(** A negative number is read from a token that starts with a minus. *)
Lemma Atoi_negative (s : string) (v : Z) :
  GoStrings.Atoi s = Some v -> v < 0 -> exists rest, s = String "-" rest.
Proof.
  intros Hv Hneg. destruct s as [|c s]; [discriminate|].
  unfold GoStrings.Atoi in Hv.
  destruct c as [[] [] [] [] [] [] [] []].
  all: try (exists s; reflexivity).
  all: exfalso; cbv beta iota zeta in Hv.
  all: destruct s as [|c' s']; try discriminate Hv.
  all: destruct (GoStrings.digitsValue _ 0) as [n|] eqn:Hn; try discriminate Hv.
  all: destruct (_ && _); try discriminate Hv.
  all: injection Hv as <-.
  all: pose proof (digitsValue_nonneg _ 0 n ltac:(lia) Hn); lia.
Qed.

(** The shape of an accepted input: a sign, two tokens that [Atoi] reads,
    hours up to the threshold and minutes that pass the checks. *)
Lemma ParseUTCOffset_Ok_inv (input : string) (l : Location) :
  ParseUTCOffset input = Ok l ->
  exists sign hours minutes h m,
    (sign = "+"%char \/ sign = "-"%char) /\
    GoStrings.Atoi hours = Some h /\
    GoStrings.Atoi minutes = Some m /\
    h <= hoursThresholdOf sign /\
    checkMinutes sign h m = None /\
    l = FixedZone
          ("UTC" ++ String sign hours ++ (if m >? 0 then ":" ++ minutes else ""))%string
          (wrap64 ((if isMinus sign then -1 else 1) * h * 60 * 60
                   + (if isMinus sign then -1 else 1) * m * 60)).
Proof.
  unfold ParseUTCOffset.
  destruct (GoStrings.len input =? 0); [discriminate|].
  destruct (GoStrings.TrimSpace (GoStrings.ReplaceFirst input "UTC" "")) as [|c0 rest];
    [discriminate|].
  destruct ((isPlus c0 || isMinus c0) && (GoStrings.len (String c0 rest) =? 1));
    [discriminate|].
  set (sign := if isPlus c0 || isMinus c0 then c0 else "+"%char).
  assert (Hsign : sign = "+"%char \/ sign = "-"%char).
  { unfold sign, isPlus, isMinus.
    destruct (Ascii.eqb_spec c0 "+"); [left; assumption|].
    destruct (Ascii.eqb_spec c0 "-"); [right; assumption|].
    left. reflexivity. }
  destruct (offsetSplitLoop _ _ _ _) as [[hours minutes]|e|]; try discriminate.
  destruct (GoStrings.Atoi hours) as [h|] eqn:Hh; [|discriminate].
  destruct (Z.gtb_spec h (hoursThresholdOf sign)); [discriminate|].
  destruct (GoStrings.Atoi minutes) as [m|] eqn:Hm; [|discriminate].
  destruct (checkMinutes sign h m) eqn:Hcheck; [discriminate|].
  intros [= <-].
  exists sign, hours, minutes, h, m.
  split; [exact Hsign|]. split; [exact Hh|]. split; [exact Hm|].
  split; [lia|]. split; [exact Hcheck | reflexivity].
Qed.

(** Every sign, every number of hours from 0 to 14 and every minute value
    that the checks let through make a known offset. *)
Lemma checked_combinations_known :
  forallb (fun sign =>
    forallb (fun h =>
      forallb (fun m =>
        implb ((h <=? hoursThresholdOf sign)
               && match checkMinutes sign h m with None => true | Some _ => false end)
              (knownOffset
                 (wrap64 ((if isMinus sign then -1 else 1) * h * 60 * 60
                          + (if isMinus sign then -1 else 1) * m * 60))))
        [0; 30; 45])
      (upto 15))
    ["+"; "-"]%char = true.
Proof. vm_compute. reflexivity. Qed.

(** X18.  What [ParseUTCOffset] accepts is a fixed zone whose offset is one
    of the known real-world offsets, unless the hours carry a minus sign of
    their own, right after the sign of the offset (as in "+-20"): this is
    the only way past the validation, and it shows in the name of the
    zone. *)
Theorem ParseUTCOffset_accepted (input : string) (l : Location) :
  ParseUTCOffset input = Ok l ->
  exists name seconds,
    l = FixedZone name seconds /\
    (knownOffset seconds = true \/
     exists sign rest, name = ("UTC" ++ String sign (String "-" rest))%string).
Proof.
  intros Hok.
  destruct (ParseUTCOffset_Ok_inv input l Hok)
    as (sign & hours & minutes & h & m & Hsign & Hh & Hm & Hthr & Hcheck & ->).
  eexists. eexists. split; [reflexivity|].
  destruct (Z.ltb_spec h 0) as [Hneg | Hpos].
  - right. destruct (Atoi_negative hours h Hh Hneg) as [rest ->].
    exists sign. eexists. cbn [append]. reflexivity.
  - left.
    assert (Hmin : In m [0; 30; 45]).
    { apply isEqual_In. unfold checkMinutes in Hcheck.
      destruct (isEqual m [0; 30; 45]); [reflexivity | discriminate Hcheck]. }
    assert (Hin : In sign ["+"; "-"]%char)
      by (destruct Hsign as [-> | ->]; [left | right; left]; reflexivity).
    assert (Hhours : In h (upto 15)).
    { apply In_upto. unfold hoursThresholdOf in Hthr.
      destruct (isMinus sign); cbn; lia. }
    pose proof checked_combinations_known as Hall.
    rewrite forallb_forall in Hall. specialize (Hall sign Hin).
    rewrite forallb_forall in Hall. specialize (Hall h Hhours).
    rewrite forallb_forall in Hall. specialize (Hall m Hmin).
    rewrite Hcheck in Hall.
    replace (h <=? hoursThresholdOf sign) with true in Hall
      by (symmetry; apply Z.leb_le; assumption).
    exact Hall.
Qed.

Lemma ParseUTCOffset_accepted_plus_3_30 :
  ParseUTCOffset "+3 30" = Ok (FixedZone "UTC+3:30" 12600) /\
  exists name seconds,
    FixedZone "UTC+3:30" 12600 = FixedZone name seconds /\
    (knownOffset seconds = true \/
     exists sign rest, name = ("UTC" ++ String sign (String "-" rest))%string).
Proof.
  split; [reflexivity|].
  exact (ParseUTCOffset_accepted "+3 30" (FixedZone "UTC+3:30" 12600) eq_refl).
Defined.

(** ** From the display string back to the timezone *)

(** X19.  For every known offset other than zero, the display string of
    its timezone is accepted by [ParseUTCOffset], as the fixed zone of that
    name and offset; so [ParseTimezone], when the string is no zone name,
    gives back that very timezone.
    For the offset zero the display string is "UTC", on which
    [ParseUTCOffset] panics. *)
Theorem known_offset_round_trip
        (LoadLocation : string -> option Location) (now : Z) (zoneName : string) (o : Z) :
  In o knownOffsets ->
  let tz := NewTimezoneFromTime (GoZone.In now (FixedZone zoneName o)) in
  Offset tz = o /\
  ParseUTCOffset (TimezoneString tz)
    = (if o =? 0 then Panic else Ok (FixedZone (TimezoneString tz) o)) /\
  (o <> 0 ->
   LoadLocation (TimezoneString tz) = None ->
   ParseTimezone LoadLocation now (TimezoneString tz) = Ok tz).
Proof.
  intros Hin. cbv zeta. vm_compute in Hin.
  repeat (destruct Hin as [<- | Hin]; [| ]); try contradiction.
  all: split; [reflexivity|]; split; [vm_compute; reflexivity|].
  all: intros Hnz Hload; try (exfalso; apply Hnz; reflexivity).
  all: unfold ParseTimezone; rewrite Hload; vm_compute; reflexivity.
Qed.

(** Nepal, five hours and three quarters east. *)
Lemma known_offset_round_trip_nepal :
  In 20700 knownOffsets /\
  let tz := NewTimezoneFromTime (GoZone.In 0 (FixedZone "Asia/Kathmandu" 20700)) in
  TimezoneString tz = "UTC+5:45"%string /\
  ParseUTCOffset (TimezoneString tz) = Ok (FixedZone "UTC+5:45" 20700).
Proof.
  assert (Hin : In 20700 knownOffsets) by (vm_compute; tauto).
  split; [exact Hin|]. cbv zeta. split; [reflexivity|].
  exact (proj1 (proj2 (known_offset_round_trip (fun _ => None) 0 "Asia/Kathmandu" 20700 Hin))).
Defined.

(** ** The location inside a timezone *)

(** X20.  The location that [NewTimezoneFromTime] stores, and [Loc] hands
    out, is a fixed zone of the magnitude of the offset: for a zone west of
    UTC its offset is the opposite of what [Offset] returns. *)
Theorem Loc_offset_magnitude (t : ZonedTime) (u : Z) :
  - 2 ^ 63 < ZoneOffset t ->
  offsetAt (Loc (NewTimezoneFromTime t)) u = Z.abs (ZoneOffset t) /\
  Offset (NewTimezoneFromTime t) = ZoneOffset t /\
  (ZoneOffset t < 0 ->
   offsetAt (Loc (NewTimezoneFromTime t)) u = - Offset (NewTimezoneFromTime t)).
Proof.
  intros Hmin.
  assert (Habs : offsetAt (Loc (NewTimezoneFromTime t)) u = Z.abs (ZoneOffset t)).
  { unfold NewTimezoneFromTime, Loc.
    destruct (Z.ltb_spec (ZoneOffset t) 0); cbv beta iota zeta;
      repeat match goal with |- context [if ?b then _ else _] => destruct b end;
      cbn [loc GoZone.offsetAt GoZone.FixedZone];
      try rewrite wrap64_small by lia; lia. }
  split; [exact Habs|]. split; [apply NewTimezoneFromTime_Offset|].
  intros Hneg. rewrite Habs, NewTimezoneFromTime_Offset. lia.
Qed.

(** One hour west, as in the test of the package. *)
Lemma Loc_offset_magnitude_one_hour_west :
  let t := GoZone.In 0 (FixedZone "TestZone" (-3600)) in
  - 2 ^ 63 < ZoneOffset t /\
  Offset (NewTimezoneFromTime t) = -3600 /\
  offsetAt (Loc (NewTimezoneFromTime t)) 0 = 3600.
Proof.
  cbv zeta. split; [reflexivity|]. split; [reflexivity|].
  exact (proj1 (Loc_offset_magnitude (GoZone.In 0 (FixedZone "TestZone" (-3600))) 0
                  eq_refl)).
Defined.

(** ** The JSON adapters *)

(** X21.  [Timezone.UnmarshalJSON] never changes the offset of its
    receiver: on success the receiver is either untouched (the decoded
    string is empty) or has the location of the parsed timezone and the
    offset it had before.  A zero-offset timezone that reads "UTC+2" then
    displays UTC+2 and still reports the offset 0. *)
Theorem Timezone_UnmarshalJSON_keeps_offset
        (jsonUnmarshalString : string -> option string)
        (LoadLocation : string -> option Location) (now : Z)
        (i i' : Timezone) (data : string) :
  Timezone_UnmarshalJSON jsonUnmarshalString LoadLocation now i data = Ok i' ->
  Offset i' = Offset i /\
  (i' = i \/
   exists s parsed,
     jsonUnmarshalString data = Some s /\
     ParseTimezone LoadLocation now s = Ok parsed /\
     Loc i' = Loc parsed).
Proof.
  unfold Timezone_UnmarshalJSON.
  destruct (jsonUnmarshalString data) as [s|]; [|discriminate].
  destruct (String.eqb s EmptyString).
  - intros [= <-]. split; [reflexivity | left; reflexivity].
  - destruct (ParseTimezone LoadLocation now s) as [parsed|e|] eqn:Hparse;
      try discriminate.
    intros [= <-]. split; [reflexivity|].
    right. exists s, parsed.
    split; [reflexivity|]. split; [exact Hparse | reflexivity].
Qed.

(** The marshalled form of UTC+2, read into the timezone of UTC. *)
Lemma Timezone_UnmarshalJSON_keeps_offset_UTC2 :
  Timezone_UnmarshalJSON unquoteString (fun _ => None) 0 (NewTimezone 0 None)
    (Timezone_MarshalJSON (NewTimezoneFromTime (GoZone.In 0 (FixedZone "Z" 7200))))
    = Ok (mkTimezone (FixedZone "UTC+2" 7200) 0) /\
  TimezoneString (mkTimezone (FixedZone "UTC+2" 7200) 0) = "UTC+2"%string /\
  Offset (mkTimezone (FixedZone "UTC+2" 7200) 0) = Offset (NewTimezone 0 None).
Proof.
  split; [reflexivity|]. split; [reflexivity|].
  exact (proj1 (Timezone_UnmarshalJSON_keeps_offset unquoteString (fun _ => None) 0
                  (NewTimezone 0 None) (mkTimezone (FixedZone "UTC+2" 7200) 0)
                  (Timezone_MarshalJSON
                     (NewTimezoneFromTime (GoZone.In 0 (FixedZone "Z" 7200))))
                  eq_refl)).
Defined.

(** X22.  A set time survives the JSON adapters: provided the JSON decoder
    reads back the string that the encoder was given, unmarshalling what
    [MarshalJSON] produced for t, into any receiver, yields [NewTime] of
    the hour and minute of t.  A time that is not set is marshalled as
    null. *)
Theorem Time_JSON_round_trip
        (jsonMarshalString : string -> string)
        (jsonUnmarshalString : string -> option string) (t i : Time) :
  (isSet t = false -> Time_MarshalJSON jsonMarshalString t = "null"%string) /\
  (isSet t = true ->
   jsonUnmarshalString (jsonMarshalString (TimeString t)) = Some (TimeString t) ->
   Time_UnmarshalJSON jsonUnmarshalString i (Time_MarshalJSON jsonMarshalString t)
     = Ok (NewTime (Hour t) (Minute t))).
Proof.
  unfold Time_MarshalJSON, Time_UnmarshalJSON. split.
  - intros ->. reflexivity.
  - intros -> Hjson. cbn [negb]. rewrite Hjson.
    pose proof (ParseTime_TimeString t) as Hparse.
    destruct (String.eqb_spec (TimeString t) EmptyString) as [Hempty | _].
    + rewrite Hempty in Hparse. discriminate Hparse.
    + rewrite Hparse. reflexivity.
Qed.

(** A quarter past ten. *)
Lemma Time_JSON_round_trip_1015 :
  isSet (NewTime 10 15) = true /\
  unquoteString (quoteString (TimeString (NewTime 10 15)))
    = Some (TimeString (NewTime 10 15)) /\
  Time_UnmarshalJSON unquoteString EmptyTime (Time_MarshalJSON quoteString (NewTime 10 15))
    = Ok (NewTime 10 15).
Proof.
  split; [reflexivity|]. split; [reflexivity|].
  exact (proj2 (Time_JSON_round_trip quoteString unquoteString (NewTime 10 15) EmptyTime)
           eq_refl eq_refl).
Defined.

(** * Comparing dates *)

(** X23.  [IsArgNextDay] is the strict order of dates by year, then month,
    then day (any later date, not only the next day): it is irreflexive,
    transitive, and of two dates exactly one is before the other, equal to
    it by [EqualDate], or after it. *)
Theorem IsArgNextDay_strict_order
        (CivilTime : Type) (Year Month Day : CivilTime -> Z)
        (a b c : Date CivilTime) :
  let before := IsArgNextDay Year Month Day in
  let same := EqualDate Year Month Day in
  before a a = false /\
  implb (before a b && before b c) (before a c) = true /\
  match before a b, same a b, before b a with
  | true, false, false | false, true, false | false, false, true => True
  | _, _, _ => False
  end /\
  (before a b = true <->
   Year (dateTime a) < Year (dateTime b) \/
   (Year (dateTime a) = Year (dateTime b) /\
    (Month (dateTime a) < Month (dateTime b) \/
     (Month (dateTime a) = Month (dateTime b) /\ Day (dateTime a) < Day (dateTime b))))).
Proof.
  cbv zeta. unfold IsArgNextDay, EqualDate.
  generalize (Year (dateTime a)) (Month (dateTime a)) (Day (dateTime a)).
  generalize (Year (dateTime b)) (Month (dateTime b)) (Day (dateTime b)).
  generalize (Year (dateTime c)) (Month (dateTime c)) (Day (dateTime c)).
  intros yc mc dc yb mb db ya ma da.
  rewrite !Z.gtb_ltb.
  repeat split.
  all: repeat match goal with
         | |- context [?x <? ?y] => destruct (Z.ltb_spec x y)
         | |- context [?x =? ?y] => destruct (Z.eqb_spec x y)
         | H : context [?x <? ?y] |- _ => destruct (Z.ltb_spec x y)
         end; cbn [andb implb negb].
  all: try reflexivity; try exact I; try lia; try discriminate.
Qed.
